(** * Plevee strategy execution engine: a shallow embedding

    The development follows [app/tasks/strategy_executor.py] together with
    the parts of [app/core/database/models.py], [app/core/services/webull.py]
    and [app/api/routes/strategies.py] it relies on.

    Conventions of the embedding:
    - Python floats and SQL decimals are exact rationals ([Q]); the NaN
      entries an indicator array carries during its look-back period are
      [None] in a [list (option Q)], and a comparison with NaN is false;
    - a JSONB value is a [json]; a parameter dictionary is a [gmap];
    - a raised exception is [Raise msg], with [msg] standing for [str(e)];
    - the SQLAlchemy session is explicit state: the committed database and
      the rows added but not yet committed; a row is built by the
      constructor [declarative_base()] gives the models, which refuses a
      keyword that is not an attribute of the class;
    - everything the source reads from outside (the indicator library, the
      market data provider, whether a commit goes through, the clock) is a
      field of a [World]. *)

From Stdlib Require Import QArith Qround ZArith List String Bool Lia Lqa.
From stdpp Require Import gmap strings.
Import ListNotations.
Local Open Scope string_scope.

(** ** Values *)

#[local] Unset Elimination Schemes.
Inductive json : Type :=
| JNull
| JBool (b : bool)
| JNum (q : Q)
| JStr (s : string)
| JArr (items : list json)
| JObj (members : list (string * json)).
#[local] Set Elimination Schemes.

(** The outcome of a Python expression that may raise. *)
Inductive result (A : Type) : Type :=
| Ok (a : A)
| Raise (msg : string).
Arguments Ok {A} a.
Arguments Raise {A} msg.

Definition rbind {A B : Type} (m : result A) (k : A -> result B) : result B :=
  match m with
  | Ok a => k a
  | Raise e => Raise e
  end.

Notation "x <- m ;; k" := (rbind m (fun x => k))
  (at level 100, m at next level, right associativity, only parsing).

(** Strict order on rationals as a boolean. *)
Definition Qltb (x y : Q) : bool := negb (Qle_bool y x).

(** [a < b] on float64 values, NaN being [None]. *)
Definition flt (a b : option Q) : bool :=
  match a, b with
  | Some x, Some y => Qltb x y
  | _, _ => false
  end.

(** The number a JSON value stands for in Python arithmetic: numbers are
    themselves, booleans are 0 and 1, anything else has no numeric value. *)
Definition as_number (j : json) : option Q :=
  match j with
  | JNum q => Some q
  | JBool b => Some (if b then 1%Q else 0%Q)
  | _ => None
  end.

(** [quantity * price] for a JSON quantity and a float price; a TypeError
    when the quantity is not a number. *)
Definition py_mul (j : json) (p : Q) : result Q :=
  match as_number j with
  | Some q => Ok (q * p)%Q
  | None => Raise "TypeError: can't multiply by non-number"
  end.

(** ** Data model ([models.py]) *)

Definition uuid := N.
Definition timestamp := N.

Module Portfolio.
Record t : Type := {
  id : uuid;
  user_id : uuid;
  name : string;
  initial_balance : Q;
  current_balance : Q;
  currency : string;
  is_paper_trading : bool
}.
End Portfolio.

Module Strategy.
Record t : Type := {
  id : uuid;
  user_id : uuid;
  portfolio_id : uuid;
  name : string;
  strategy_type : string;
  parameters : gmap string json;
  is_active : bool
}.
End Strategy.

(** The fields [_execute_trade] gives the [Trade] it builds, and the value
    the claims call the [total_value] of a trade. *)
Module Trade.
Record t : Type := {
  portfolio_id : uuid;
  symbol : json;
  side : string;
  quantity : json;
  price : Q;
  total_value : Q;
  order_type : string;
  status : string;
  executed_at : timestamp
}.
End Trade.

Module Position.
Record t : Type := {
  portfolio_id : uuid;
  symbol : string;
  quantity : Q;
  average_entry_price : Q
}.
End Position.

(** A price bar as [WebullService.get_bars] returns it.  [close] is the
    value of [float(bar["close"])], [None] when that conversion raises. *)
Module Bar.
Record t : Type := {
  timestamp : string;
  open : Q;
  high : Q;
  low : Q;
  close : option Q;
  volume : Z
}.
End Bar.

(** The dictionary a signal check returns. *)
Module Signal.
Record t : Type := {
  symbol : json;
  side : string;
  quantity : json;
  price : Q
}.
End Signal.

(** The dictionary [execute_strategy] returns. *)
Inductive JobResult : Type :=
| Success (strategy_id : string) (trades_executed : nat) (executed_at : timestamp)
| Error (message : string).

Definition status (r : JobResult) : string :=
  match r with
  | Success _ _ _ => "success"
  | Error _ => "error"
  end.

Definition trades_executed_of (r : JobResult) : option nat :=
  match r with
  | Success _ n _ => Some n
  | Error _ => None
  end.

(** ** The world outside the source *)

(** The three TA-Lib functions the signal checks call.  Each returns arrays
    (here lists) of float64 values in which NaN is [None]. *)
Record Talib : Type := {
  RSI : list Q -> nat -> list (option Q);
  MACD : list Q -> nat -> nat -> nat ->
         list (option Q) * list (option Q) * list (option Q);
  BBANDS : list Q -> nat -> Q -> Q ->
           list (option Q) * list (option Q) * list (option Q)
}.

(** What a run of the task reads from outside the source file:
    - [UUID s] is [uuid.UUID(s)], [None] when it raises [ValueError];
    - [talib] is [None] when [import talib] raises [ImportError];
    - [get_bars symbol timeframe limit] is the answer of
      [get_webull_service(...).get_bars(...)], which without a configured
      client comes from the random draws of [_get_sample_bars];
    - [commit_error rows] tells whether [session.commit()] raises when
      [rows] are pending, and with which message;
    - [utcnow] is the clock. *)
Record World : Type := {
  UUID : string -> option uuid;
  talib : option Talib;
  get_bars : json -> string -> nat -> result (list Bar.t);
  commit_error : list Trade.t -> option string;
  utcnow : timestamp
}.

(** ** Signal checks *)

(** [d.get(key, default)] *)
Definition dict_get (d : gmap string json) (key : string) (default : json) : json :=
  match d !! key with
  | Some v => v
  | None => default
  end.

(** [a[-1]]: the last element, an [IndexError] on an empty array. *)
Definition index_last {A : Type} (a : list A) : result A :=
  match last a with
  | Some x => Ok x
  | None => Raise "IndexError: index -1 is out of bounds"
  end.

(** [np.array([float(bar["close"]) for bar in bars])] *)
Fixpoint closes_of (bars : list Bar.t) : result (list Q) :=
  match bars with
  | [] => Ok []
  | bar :: rest =>
      match Bar.close bar with
      | Some c => cs <- closes_of rest ;; Ok (c :: cs)
      | None => Raise "could not convert bar close to float"
      end
  end.

(** The body of the outer [try] of [_check_momentum_signal], after the
    import of the indicator library has succeeded. *)
Definition momentum_body (w : World) (lib : Talib) (strategy : Strategy.t)
  : result (option Signal.t) :=
  let symbol := dict_get (Strategy.parameters strategy) "symbol" (JStr "AAPL") in
  bars <- get_bars w symbol "1D" 100 ;;
  if (length bars <? 50)%nat then Ok None else
  closes <- closes_of bars ;;
  let rsi := RSI lib closes 14 in
  let '(macd, signal, hist) := MACD lib closes 12 26 9 in
  current_rsi <- index_last rsi ;;
  current_macd <- index_last macd ;;
  current_signal <- index_last signal ;;
  current_price <- index_last closes ;;
  if flt current_rsi (Some 30%Q) && flt current_signal current_macd then
    Ok (Some {| Signal.symbol := symbol;
                Signal.side := "BUY";
                Signal.quantity := dict_get (Strategy.parameters strategy) "quantity" (JNum 10);
                Signal.price := current_price |})
  else if flt (Some 70%Q) current_rsi && flt current_macd current_signal then
    Ok (Some {| Signal.symbol := symbol;
                Signal.side := "SELL";
                Signal.quantity := dict_get (Strategy.parameters strategy) "quantity" (JNum 10);
                Signal.price := current_price |})
  else Ok None.

(** [try: ... except Exception: return None] *)
Definition or_none {A : Type} (r : result (option A)) : option A :=
  match r with
  | Ok v => v
  | Raise _ => None
  end.

Definition _check_momentum_signal (w : World) (strategy : Strategy.t)
  : option Signal.t :=
  match talib w with
  | None => None
  | Some lib => or_none (momentum_body w lib strategy)
  end.

(** The body of the outer [try] of [_check_mean_reversion_signal]. *)
Definition mean_reversion_body (w : World) (lib : Talib) (strategy : Strategy.t)
  : result (option Signal.t) :=
  let symbol := dict_get (Strategy.parameters strategy) "symbol" (JStr "AAPL") in
  bars <- get_bars w symbol "1D" 50 ;;
  if (length bars <? 20)%nat then Ok None else
  closes <- closes_of bars ;;
  let '(upper, middle, lower) := BBANDS lib closes 20 2 2 in
  current_price <- index_last closes ;;
  current_upper <- index_last upper ;;
  current_lower <- index_last lower ;;
  current_middle <- index_last middle ;;
  if flt (Some current_price) current_lower then
    Ok (Some {| Signal.symbol := symbol;
                Signal.side := "BUY";
                Signal.quantity := dict_get (Strategy.parameters strategy) "quantity" (JNum 10);
                Signal.price := current_price |})
  else if flt current_upper (Some current_price) then
    Ok (Some {| Signal.symbol := symbol;
                Signal.side := "SELL";
                Signal.quantity := dict_get (Strategy.parameters strategy) "quantity" (JNum 10);
                Signal.price := current_price |})
  else Ok None.

Definition _check_mean_reversion_signal (w : World) (strategy : Strategy.t)
  : option Signal.t :=
  match talib w with
  | None => None
  | Some lib => or_none (mean_reversion_body w lib strategy)
  end.

(** ** The database session *)

Record DB : Type := {
  strategies : list Strategy.t;
  portfolios : list Portfolio.t;
  positions : list Position.t;
  trades : list Trade.t
}.

(** [committed] is what every reader of the database sees; [pending] are
    the rows handed to [session.add] since the last commit or rollback. *)
Record Session : Type := {
  committed : DB;
  pending : list Trade.t
}.

(** The session a task opens: nothing pending. *)
Definition fresh_session (db : DB) : Session := {| committed := db; pending := [] |}.

Definition insert_trades (db : DB) (rows : list Trade.t) : DB :=
  {| strategies := strategies db;
     portfolios := portfolios db;
     positions := positions db;
     trades := trades db ++ rows |}.

(** A computation on the session that may raise; the session it leaves
    behind is returned in both cases. *)
Definition M (A : Type) : Type := Session -> result A * Session.

Definition ret {A : Type} (a : A) : M A := fun s => (Ok a, s).

Definition bind {A B : Type} (m : M A) (k : A -> M B) : M B :=
  fun s =>
    match m s with
    | (Ok a, s') => k a s'
    | (Raise e, s') => (Raise e, s')
    end.

(** [try: m except Exception as e: handler(e)] *)
Definition try_except {A : Type} (m : M A) (handler : string -> M A) : M A :=
  fun s =>
    match m s with
    | (Ok a, s') => (Ok a, s')
    | (Raise e, s') => handler e s'
    end.

Definition lift {A : Type} (r : result A) : M A := fun s => (r, s).

Notation "x <~ m ;; k" := (bind m (fun x => k))
  (at level 100, m at next level, right associativity, only parsing).

Definition session_add (row : Trade.t) : M unit :=
  fun s => (Ok tt, {| committed := committed s; pending := pending s ++ [row] |}).

Definition session_commit (w : World) : M unit :=
  fun s =>
    match commit_error w (pending s) with
    | None => (Ok tt, {| committed := insert_trades (committed s) (pending s);
                         pending := [] |})
    | Some e => (Raise e, s)
    end.

Definition session_rollback : M unit :=
  fun s => (Ok tt, {| committed := committed s; pending := [] |}).

(** [query(Strategy).filter(Strategy.id == u, Strategy.is_active == True).first()] *)
Definition find_active_strategy (db : DB) (u : uuid) : option Strategy.t :=
  List.find (fun st => N.eqb (Strategy.id st) u && Strategy.is_active st)
            (strategies db).

(** [query(Portfolio).filter(Portfolio.id == u).first()] *)
Definition find_portfolio (db : DB) (u : uuid) : option Portfolio.t :=
  List.find (fun p => N.eqb (Portfolio.id p) u) (portfolios db).

Definition query_active_strategy (u : uuid) : M (option Strategy.t) :=
  fun s => (Ok (find_active_strategy (committed s) u), s).

Definition query_portfolio (u : uuid) : M (option Portfolio.t) :=
  fun s => (Ok (find_portfolio (committed s) u), s).

(** ** Trade execution *)

(** The attributes [models.Trade] declares: its columns and its two
    relationships.  (What the class inherits from [Base] is none of the
    keywords below.) *)
Definition Trade_attributes : list string :=
  [ "id"; "user_id"; "portfolio_id"; "strategy_id"; "exchange_name"; "symbol";
    "asset_class"; "side"; "order_type"; "quantity"; "price"; "executed_price";
    "status"; "order_id"; "fees"; "profit_loss"; "executed_at"; "created_at";
    "portfolio"; "strategy" ].

(** The keywords of the call [Trade(...)] in [_execute_trade], in order. *)
Definition Trade_keywords : list string :=
  [ "portfolio_id"; "symbol"; "side"; "quantity"; "price"; "total_value";
    "order_type"; "status"; "executed_at" ].

(** The constructor [declarative_base()] gives every model
    ([session.py], [Base]): the keywords are taken in order, and one that
    is not an attribute of the class raises a [TypeError]. *)
Definition declarative_constructor (class_name : string) (attributes keywords : list string)
  : result unit :=
  match List.find (fun k => negb (existsb (String.eqb k) attributes)) keywords with
  | Some k => Raise ("TypeError: '" ++ k ++ "' is an invalid keyword argument for "
                     ++ class_name)
  | None => Ok tt
  end.

Definition _execute_trade (w : World) (portfolio : Portfolio.t) (signal : Signal.t)
  : M (option Trade.t) :=
  try_except
    (total_value <~ lift (py_mul (Signal.quantity signal) (Signal.price signal)) ;;
     _ <~ lift (declarative_constructor "Trade" Trade_attributes Trade_keywords) ;;
     let trade := {| Trade.portfolio_id := Portfolio.id portfolio;
                     Trade.symbol := Signal.symbol signal;
                     Trade.side := Signal.side signal;
                     Trade.quantity := Signal.quantity signal;
                     Trade.price := Signal.price signal;
                     Trade.total_value := total_value;
                     Trade.order_type := "market";
                     Trade.status := "executed";
                     Trade.executed_at := utcnow w |} in
     _ <~ session_add trade ;;
     _ <~ session_commit w ;;
     ret (Some trade))
    (fun e =>
       _ <~ session_rollback ;;
       ret None).

(** ** The task *)

(** One branch of the dispatch on [strategy.strategy_type]: run the signal
    check and, on a signal, the trade; the count of trades made. *)
Definition run_signal (w : World) (portfolio : Portfolio.t)
    (signal : option Signal.t) : M nat :=
  match signal with
  | Some sig =>
      trade <~ _execute_trade w portfolio sig ;;
      match trade with
      | Some _ => ret 1%nat
      | None => ret 0%nat
      end
  | None => ret 0%nat
  end.

Definition execute_strategy (w : World) (strategy_id : string) : M JobResult :=
  try_except
    (u <~ lift (match UUID w strategy_id with
                | Some u => Ok u
                | None => Raise "badly formed hexadecimal UUID string"
                end) ;;
     strategy <~ query_active_strategy u ;;
     match strategy with
     | None => ret (Error "Strategy not found or inactive")
     | Some strategy =>
         portfolio <~ query_portfolio (Strategy.portfolio_id strategy) ;;
         match portfolio with
         | None => ret (Error "Portfolio not found")
         | Some portfolio =>
             trades_executed <~
               (if String.eqb (Strategy.strategy_type strategy) "momentum" then
                  run_signal w portfolio (_check_momentum_signal w strategy)
                else if String.eqb (Strategy.strategy_type strategy) "mean_reversion" then
                  run_signal w portfolio (_check_mean_reversion_signal w strategy)
                else ret 0%nat) ;;
             (* [strategy.last_executed_at] is not a mapped column of
                [Strategy]: the assignment changes no row. *)
             _ <~ session_commit w ;;
             ret (Success strategy_id trades_executed (utcnow w))
         end
     end)
    (fun e =>
       _ <~ session_rollback ;;
       ret (Error e)).

(** ** Activation and dispatch ([routes/strategies.py], [celery_app.py])

    [activate_strategy] marks the strategy active and sends one
    [execute_strategy] message to the broker.  The worker pool is Celery's:
    a worker with a free slot takes the message at the head of the queue
    and runs the task; the task is in flight until it returns.  Nothing in
    the route, in the Celery configuration or in the task takes a lock or a
    lease, or sends a message back to the queue. *)

Module Dispatch.

Record System : Type := {
  store : DB;
  queue : list string;      (* messages waiting in the broker *)
  running : list string;    (* the tasks in flight, one per busy worker *)
  workers : nat             (* size of the worker pool *)
}.

(** The row [query.first()] returns, changed in place by [f]. *)
Fixpoint update_first {A : Type} (p : A -> bool) (f : A -> A) (l : list A) : list A :=
  match l with
  | [] => []
  | x :: rest => if p x then f x :: rest else x :: update_first p f rest
  end.

Definition owned_by (strategy_id user : uuid) (st : Strategy.t) : bool :=
  N.eqb (Strategy.id st) strategy_id && N.eqb (Strategy.user_id st) user.

Definition activated (st : Strategy.t) : Strategy.t :=
  {| Strategy.id := Strategy.id st;
     Strategy.user_id := Strategy.user_id st;
     Strategy.portfolio_id := Strategy.portfolio_id st;
     Strategy.name := Strategy.name st;
     Strategy.strategy_type := Strategy.strategy_type st;
     Strategy.parameters := Strategy.parameters st;
     Strategy.is_active := true |}.

(** [strategy.is_active = True; db.commit()] *)
Definition set_active (strategy_id user : uuid) (db : DB) : DB :=
  {| strategies := update_first (owned_by strategy_id user) activated (strategies db);
     portfolios := portfolios db;
     positions := positions db;
     trades := trades db |}.

(** The route [PATCH /{strategy_id}/activate]: [None] is the 404 answer.
    [str] is the string form of an id. *)
Definition activate_strategy (str : uuid -> string) (strategy_id user : uuid)
    (sys : System) : option System :=
  match List.find (owned_by strategy_id user) (strategies (store sys)) with
  | None => None
  | Some _ =>
      Some {| store := set_active strategy_id user (store sys);
              queue := queue sys ++ [str strategy_id];
              running := running sys;
              workers := workers sys |}
  end.

(** A worker with a free slot starts the task of the first message. *)
Definition worker_start (sys : System) : option System :=
  match queue sys with
  | [] => None
  | job :: rest =>
      if (length (running sys) <? workers sys)%nat then
        Some {| store := store sys;
                queue := rest;
                running := running sys ++ [job];
                workers := workers sys |}
      else None
  end.

(** The [i]-th task in flight returns: [execute_strategy] has run on a
    session of its own in world [w]. *)
Definition worker_finish (w : World) (i : nat) (sys : System) : option System :=
  match nth_error (running sys) i with
  | None => None
  | Some job =>
      Some {| store := committed (snd (execute_strategy w job (fresh_session (store sys))));
              queue := queue sys;
              running := firstn i (running sys) ++ skipn (S i) (running sys);
              workers := workers sys |}
  end.

Inductive event : Type :=
| Activate (strategy_id user : uuid)
| Start
| Finish (w : World) (i : nat).

Definition step (str : uuid -> string) (e : event) (sys : System) : option System :=
  match e with
  | Activate strategy_id user => activate_strategy str strategy_id user sys
  | Start => worker_start sys
  | Finish w i => worker_finish w i sys
  end.

(** A run: the events in order; an event that cannot happen ends it. *)
Fixpoint run (str : uuid -> string) (es : list event) (sys : System) : option System :=
  match es with
  | [] => Some sys
  | e :: rest =>
      match step str e sys with
      | Some sys' => run str rest sys'
      | None => None
      end
  end.

(** The number of tasks in flight for a job argument. *)
Definition in_flight (job : string) (sys : System) : nat :=
  length (List.filter (String.eqb job) (running sys)).

(** At most one task per strategy is in flight. *)
Definition mutual_exclusion (sys : System) : Prop :=
  forall job : string, (in_flight job sys <= 1)%nat.

End Dispatch.

(** ** Notions used in the statements *)

(** The latest value of an indicator array, NaN when there is none. *)
Definition latest (a : list (option Q)) : option Q :=
  match last a with
  | Some v => v
  | None => None
  end.

(** [closes[-1]] of a non-empty series. *)
Definition latest_close (closes : list Q) : Q :=
  match last closes with
  | Some c => c
  | None => 0%Q
  end.

(** The intent a signal check builds for a side. *)
Definition intent_of (strategy : Strategy.t) (side : string) (price : Q) : Signal.t :=
  {| Signal.symbol := dict_get (Strategy.parameters strategy) "symbol" (JStr "AAPL");
     Signal.side := side;
     Signal.quantity := dict_get (Strategy.parameters strategy) "quantity" (JNum 10);
     Signal.price := price |}.

(** The signal check [execute_strategy] selects for a strategy type; no
    check, hence no signal, for any other type. *)
Definition check_signal (w : World) (strategy : Strategy.t) : option Signal.t :=
  if String.eqb (Strategy.strategy_type strategy) "momentum" then
    _check_momentum_signal w strategy
  else if String.eqb (Strategy.strategy_type strategy) "mean_reversion" then
    _check_mean_reversion_signal w strategy
  else None.



(** The session after a rollback. *)
Definition rolled_back (s : Session) : Session :=
  {| committed := committed s; pending := [] |}.

(** The session after a commit that went through. *)
Definition flushed (s : Session) : Session :=
  {| committed := insert_trades (committed s) (pending s); pending := [] |}.

(** The signal check selected for the strategy meets an exception: the
    indicator library cannot be imported, or the body of the check raises
    (the provider call fails, a bar has no usable close, an array is
    empty). *)
Definition check_raises (w : World) (strategy : Strategy.t) : Prop :=
  (Strategy.strategy_type strategy = "momentum" /\
   (talib w = None \/
    exists lib e, talib w = Some lib /\ momentum_body w lib strategy = Raise e)) \/
  (Strategy.strategy_type strategy = "mean_reversion" /\
   (talib w = None \/
    exists lib e, talib w = Some lib /\ mean_reversion_body w lib strategy = Raise e)).

(** The provider answers the check selected for the strategy with fewer
    bars than the check asks for. *)
Definition series_too_short (w : World) (strategy : Strategy.t) : Prop :=
  let symbol := dict_get (Strategy.parameters strategy) "symbol" (JStr "AAPL") in
  (Strategy.strategy_type strategy = "momentum" /\
   exists bars, get_bars w symbol "1D" 100 = Ok bars /\ (length bars < 50)%nat) \/
  (Strategy.strategy_type strategy = "mean_reversion" /\
   exists bars, get_bars w symbol "1D" 50 = Ok bars /\ (length bars < 20)%nat).

(** *** The ledger equations of the specification *)






(** Every trade on record has a position row for its portfolio and
    symbol. *)
Definition no_partial_state (db : DB) : Prop :=
  forall t : Trade.t,
    In t (trades db) ->
    exists p : Position.t,
      In p (positions db) /\
      Position.portfolio_id p = Trade.portfolio_id t /\
      JStr (Position.symbol p) = Trade.symbol t.

(** The statuses the specification gives a job result. *)
Definition spec_statuses : list string := ["success"; "skipped"; "failed"].

(** ** Bollinger bands *)

Definition Qsum (l : list Q) : Q := fold_right Qplus 0%Q l.

Definition mean (l : list Q) : Q := (Qsum l / inject_Z (Z.of_nat (length l)))%Q.

(** Population variance: the mean of the squared deviations. *)
Definition variance (l : list Q) : Q :=
  mean (map (fun x => ((x - mean l) * (x - mean l))%Q) l).

(** The last [n] entries of a series. *)
Definition window (n : nat) (l : list Q) : list Q := skipn (length l - n) l.

Definition eps : Q := (1 # 1000000)%Q.

(** [sd] is the square root of [v] up to [eps]. *)
Definition approx_sqrt (sd v : Q) : Prop :=
  (0 <= sd)%Q /\ (v <= (sd + eps) * (sd + eps))%Q /\
  ((sd <= eps)%Q \/ ((sd - eps) * (sd - eps) <= v)%Q).

(** Modelled from the spec: TA-Lib is not part of the repository; the spec's
    glossary defines Bollinger Bands as a moving average plus and minus k
    standard deviations.  A library meets that definition when, for a
    series of at least 20 closes, the latest entries of the three arrays of
    [BBANDS(closes, 20, 2, 2)] are the mean [m] of the last 20 closes and
    [m + 2 sd], [m - 2 sd], with [sd] their standard deviation up to [eps]
    (a float64 square root is a rational near the real one). *)
Definition bollinger_spec (lib : Talib) : Prop :=
  forall closes : list Q,
    (20 <= length closes)%nat ->
    exists m sd u l : Q,
      last (BBANDS lib closes 20 2 2).1.1 = Some (Some u) /\
      last (BBANDS lib closes 20 2 2).1.2 = Some (Some m) /\
      last (BBANDS lib closes 20 2 2).2 = Some (Some l) /\
      (m == mean (window 20 closes))%Q /\
      (u == m + 2 * sd)%Q /\
      (l == m - 2 * sd)%Q /\
      approx_sqrt sd (variance (window 20 closes)).

(** ** A reference indicator library

    Used to run the signal checks on concrete series. *)

(** The square root rounded down to six decimals. *)
Definition sqrt_down (x : Q) : Q :=
  Z.sqrt (Qfloor (x * inject_Z (10 ^ 12))) # 1000000.

(** One value per bar: [f] applied to the series up to and including that
    bar. *)
Definition per_bar {A : Type} (f : list Q -> A) (closes : list Q) : list A :=
  map (fun i => f (firstn (S i) closes)) (seq 0 (length closes)).

(** Modelled from the spec: moving average plus and minus [up], [dn]
    standard deviations over the last [n] closes; NaN before [n] closes are
    there. *)
Definition ref_band (n : nat) (k : Q) (prefix : list Q) : option Q :=
  if (length prefix <? n)%nat then None
  else Some (Qred (mean (window n prefix) + k * sqrt_down (variance (window n prefix)))).

Definition ref_BBANDS (closes : list Q) (n : nat) (up dn : Q)
  : list (option Q) * list (option Q) * list (option Q) :=
  (per_bar (ref_band n up) closes,
   per_bar (ref_band n 0) closes,
   per_bar (ref_band n (- dn)) closes).

(** Modelled from the spec: exponential moving average of period [n],
    seeded with the mean of the first [n] values. *)
Definition ema (n : nat) (xs : list Q) : option Q :=
  if (length xs <? n)%nat then None
  else
    let alpha := (2 / inject_Z (Z.of_nat (S n)))%Q in
    Some (fold_left (fun e x => Qred (alpha * x + (1 - alpha) * e))
                    (skipn n xs) (Qred (mean (firstn n xs)))).

(** Modelled from the spec: the MACD line is the fast EMA minus the slow
    EMA; the signal line is an EMA of the MACD line. *)
Definition ref_macd_line (f s : nat) (prefix : list Q) : option Q :=
  match ema f prefix, ema s prefix with
  | Some a, Some b => Some (Qred (a - b))
  | _, _ => None
  end.

Fixpoint somes {A : Type} (l : list (option A)) : list A :=
  match l with
  | [] => []
  | Some x :: rest => x :: somes rest
  | None :: rest => somes rest
  end.

Definition ref_MACD (closes : list Q) (f s g : nat)
  : list (option Q) * list (option Q) * list (option Q) :=
  let line := per_bar (ref_macd_line f s) closes in
  let signal := map (fun i => ema g (somes (firstn (S i) line)))
                    (seq 0 (length closes)) in
  let hist := map (fun i => match nth i line None, nth i signal None with
                            | Some a, Some b => Some (Qred (a - b))
                            | _, _ => None
                            end)
                  (seq 0 (length closes)) in
  (line, signal, hist).

(** The day-to-day changes of a series. *)
Fixpoint changes (xs : list Q) : list Q :=
  match xs with
  | x :: (y :: _) as rest => (y - x)%Q :: changes rest
  | _ => []
  end.

Definition gain (c : Q) : Q := if Qltb 0 c then c else 0%Q.
Definition loss (c : Q) : Q := if Qltb c 0 then (- c)%Q else 0%Q.

(** Modelled from the spec: relative strength index of period [n], from
    the smoothed average gain and loss of the closes. *)
Definition ref_rsi (n : nat) (prefix : list Q) : option Q :=
  let cs := changes prefix in
  if (length cs <? n)%nat then None
  else
    let k := inject_Z (Z.of_nat n) in
    let smooth (sel : Q -> Q) :=
      fold_left (fun a c => Qred ((a * (k - 1) + sel c) / k))
                (skipn n cs) (Qred (mean (map sel (firstn n cs)))) in
    let g := smooth gain in
    let l := smooth loss in
    if Qeq_bool (g + l) 0 then Some 0%Q
    else Some (Qred (100 * g / (g + l))).

Definition reference_talib : Talib :=
  {| RSI := fun closes n => per_bar (ref_rsi n) closes;
     MACD := ref_MACD;
     BBANDS := ref_BBANDS |}.

(** ** Concrete inputs *)

Definition strategy_uuid_str : string := "7d9f1c2e-3b4a-4c5d-8e6f-0a1b2c3d4e5f".

Definition demo_UUID (s : string) : option uuid :=
  if String.eqb s strategy_uuid_str then Some 1%N else None.

(** A world with the reference library in which the provider answers
    [bars] and every commit goes through. *)
Definition demo_world (bars : list Bar.t) : World :=
  {| UUID := demo_UUID;
     talib := Some reference_talib;
     get_bars := fun _ _ _ => Ok bars;
     commit_error := fun _ => None;
     utcnow := 1700000000%N |}.

(** A bar closing at [c]. *)
Definition bar_at (c : Q) : Bar.t :=
  {| Bar.timestamp := "2024-01-01T00:00:00";
     Bar.open := c; Bar.high := c; Bar.low := c;
     Bar.close := Some c;
     Bar.volume := 1000000 |}.

Definition demo_portfolio : Portfolio.t :=
  {| Portfolio.id := 7%N;
     Portfolio.user_id := 3%N;
     Portfolio.name := "paper";
     Portfolio.initial_balance := 10000%Q;
     Portfolio.current_balance := 10000%Q;
     Portfolio.currency := "USD";
     Portfolio.is_paper_trading := true |}.

Definition demo_strategy (type : string) (active : bool) : Strategy.t :=
  {| Strategy.id := 1%N;
     Strategy.user_id := 3%N;
     Strategy.portfolio_id := 7%N;
     Strategy.name := "demo";
     Strategy.strategy_type := type;
     Strategy.parameters := {[ "symbol" := JStr "AAPL"; "quantity" := JNum 10 ]};
     Strategy.is_active := active |}.

Definition demo_db (type : string) (active : bool) : DB :=
  {| strategies := [demo_strategy type active];
     portfolios := [demo_portfolio];
     positions := [];
     trades := [] |}.

(** Sixty daily closes: a fall of 4 a day from 300 for 45 days, then a
    slow drift down from 120. *)
Definition slowing_fall : list Q :=
  map (fun i => if (i <? 45)%nat then (300 - 4 * Z.of_nat i) # 1
                else (1200 - 2 * (Z.of_nat i - 45)) # 10)
      (seq 0 60).

(** Twenty flat closes at 100 followed by one close at 80. *)
Definition flat_then_drop : list Q := repeat 100%Q 20 ++ [80%Q].


Definition buy_10_at_80 : Signal.t :=
  {| Signal.symbol := JStr "AAPL"; Signal.side := "BUY";
     Signal.quantity := JNum 10; Signal.price := 80%Q |}.





(** A world in which the provider call raises. *)
Definition failing_provider_world : World :=
  {| UUID := demo_UUID;
     talib := Some reference_talib;
     get_bars := fun _ _ _ => Raise "ProviderError: connection timed out";
     commit_error := fun _ => None;
     utcnow := 1700000000%N |}.

(** Ten daily bars at 150. *)
Definition ten_bars : list Bar.t := repeat (bar_at 150) 10.

(** Another run: a later clock, another id parser, a database that refuses
    commits, and the same provider answer. *)
Definition later_world (bars : list Bar.t) : World :=
  {| UUID := fun _ => Some 2%N;
     talib := Some reference_talib;
     get_bars := fun _ _ _ => Ok bars;
     commit_error := fun _ => Some "OperationalError: server closed the connection";
     utcnow := 1700086400%N |}.

(** Another strategy row with the parameters of [demo_strategy]. *)
Definition twin_strategy (type : string) : Strategy.t :=
  {| Strategy.id := 2%N;
     Strategy.user_id := 4%N;
     Strategy.portfolio_id := 8%N;
     Strategy.name := "twin";
     Strategy.strategy_type := type;
     Strategy.parameters := {[ "symbol" := JStr "AAPL"; "quantity" := JNum 10 ]};
     Strategy.is_active := false |}.

(** A pool of two idle workers over [db], nothing queued. *)
Definition idle_pool (db : DB) : Dispatch.System :=
  {| Dispatch.store := db;
     Dispatch.queue := [];
     Dispatch.running := [];
     Dispatch.workers := 2 |}.

Definition demo_str (u : uuid) : string :=
  if N.eqb u 1 then strategy_uuid_str else "00000000-0000-0000-0000-000000000000".



(** * The rest of the engine

    The functions around the signal checks and the executor: the
    [stop_strategy] task, the other strategy routes, the Webull service the
    checks take their bars from, with its routes, and the portfolio and
    position routes that read and write the same tables. *)

(** ** Stopping a strategy ([stop_strategy], [strategy_executor.py]) *)

(** The dictionary [stop_strategy] returns. *)
Record Reply : Type := {
  reply_status : string;
  reply_message : string
}.

Definition deactivated (st : Strategy.t) : Strategy.t :=
  {| Strategy.id := Strategy.id st;
     Strategy.user_id := Strategy.user_id st;
     Strategy.portfolio_id := Strategy.portfolio_id st;
     Strategy.name := Strategy.name st;
     Strategy.strategy_type := Strategy.strategy_type st;
     Strategy.parameters := Strategy.parameters st;
     Strategy.is_active := false |}.

Definition has_id (u : uuid) (st : Strategy.t) : bool := N.eqb (Strategy.id st) u.

Definition set_strategies (rows : list Strategy.t) (db : DB) : DB :=
  {| strategies := rows;
     portfolios := portfolios db;
     positions := positions db;
     trades := trades db |}.

(** The task opens a session of its own; the only write is the flag of the
    row [query.first()] returned, flushed by [session.commit()].  Any
    exception is answered with its message after a rollback. *)
Definition stop_strategy (w : World) (strategy_id : string) (db : DB) : Reply * DB :=
  match
    (u <- match UUID w strategy_id with
          | Some u => Ok u
          | None => Raise "badly formed hexadecimal UUID string"
          end ;;
     match List.find (has_id u) (strategies db) with
     | Some _ =>
         _ <- match commit_error w [] with
              | None => Ok tt
              | Some e => Raise e
              end ;;
         Ok ({| reply_status := "success"; reply_message := "Strategy stopped" |},
             set_strategies (Dispatch.update_first (has_id u) deactivated (strategies db)) db)
     | None =>
         Ok ({| reply_status := "error"; reply_message := "Strategy not found" |}, db)
     end)
  with
  | Ok r => r
  | Raise e => ({| reply_status := "error"; reply_message := e |}, db)
  end.

(** ** The other strategy routes ([routes/strategies.py]) *)

Module StrategyRoutes.


Definition owns_portfolio (pid user : uuid) (p : Portfolio.t) : bool :=
  N.eqb (Portfolio.id p) pid && N.eqb (Portfolio.user_id p) user.



(** [deactivate_strategy]: [None] is the 404 answer. *)
Definition deactivate_strategy (strategy_id user : uuid) (db : DB) : option DB :=
  match List.find (Dispatch.owned_by strategy_id user) (strategies db) with
  | None => None
  | Some _ =>
      Some (set_strategies
              (Dispatch.update_first (Dispatch.owned_by strategy_id user) deactivated
                                     (strategies db)) db)
  end.

(** The route on a system with a queue: the queue and the tasks in flight
    are not looked at. *)
Definition deactivate (strategy_id user : uuid) (sys : Dispatch.System)
  : option Dispatch.System :=
  match deactivate_strategy strategy_id user (Dispatch.store sys) with
  | None => None
  | Some db =>
      Some {| Dispatch.store := db;
              Dispatch.queue := Dispatch.queue sys;
              Dispatch.running := Dispatch.running sys;
              Dispatch.workers := Dispatch.workers sys |}
  end.

End StrategyRoutes.

(** The primary key of the strategies table. *)
Definition unique_strategy_ids (db : DB) : Prop :=
  List.NoDup (map Strategy.id (strategies db)).

(** ** More concrete inputs *)

(** A world in which every commit is refused: the connection is lost. *)
Definition refusing_world (bars : list Bar.t) : World :=
  {| UUID := demo_UUID;
     talib := Some reference_talib;
     get_bars := fun _ _ _ => Ok bars;
     commit_error := fun _ => Some "OperationalError: server closed the connection";
     utcnow := 1700000000%N |}.

(** The demo strategy with a quantity that is not a number. *)
Definition misconfigured_strategy : Strategy.t :=
  {| Strategy.id := 1%N;
     Strategy.user_id := 3%N;
     Strategy.portfolio_id := 7%N;
     Strategy.name := "demo";
     Strategy.strategy_type := "mean_reversion";
     Strategy.parameters := {[ "symbol" := JStr "AAPL"; "quantity" := JStr "ten" ]};
     Strategy.is_active := true |}.

Definition misconfigured_db : DB :=
  {| strategies := [misconfigured_strategy];
     portfolios := [demo_portfolio];
     positions := [];
     trades := [] |}.


(** ** The Webull service ([core/services/webull.py]) *)

Module Webull.

(** *** Python values *)

(** The truth value of a JSON value in a condition. *)
Definition truthy (j : json) : bool :=
  match j with
  | JNull => false
  | JBool b => b
  | JNum q => negb (Qeq_bool q 0)
  | JStr s => negb (String.eqb s "")
  | JArr items => match items with [] => false | _ :: _ => true end
  | JObj members => match members with [] => false | _ :: _ => true end
  end.

(** [max(a, b)] and [min(a, b)]: the first argument unless the second is
    strictly better. *)
Definition py_max (a b : Q) : Q := if Qltb a b then b else a.
Definition py_min (a b : Q) : Q := if Qltb b a then b else a.

(** Rounding to the nearest integer, ties to even. *)
Definition round_half_even (x : Q) : Z :=
  let f := Qfloor x in
  let r := (x - inject_Z f)%Q in
  if Qltb r (1 # 2) then f
  else if Qltb (1 # 2) r then (f + 1)%Z
  else if Z.even f then f else (f + 1)%Z.

(** [round(x, 2)] *)
Definition round2 (x : Q) : Q := round_half_even (x * 100) # 100.

(** What the service reads from outside its source:
    - [uniform k a b] and [randint k a b] are the results of
      [random.uniform(a, b)] and [random.randint(a, b)] when they are the
      [k]-th call made to the generator;
    - [isoformat_days_ago i d] is
      [(datetime.now() - timedelta(days=d)).isoformat()] at the [i]-th
      reading of the clock;
    - [float_of_str s] and [int_of_str s] are [float(s)] and [int(s)],
      [None] when they raise [ValueError].
    Floats are the rationals they stand for, as elsewhere; a field that
    reads as nan or as an infinity has no counterpart here. *)
Record Env : Type := {
  uniform : nat -> Q -> Q -> Q;
  randint : nat -> Z -> Z -> Z;
  isoformat_days_ago : nat -> Z -> string;
  float_of_str : string -> option Q;
  int_of_str : string -> option Z
}.

(** The contract of the [random] module: [a <= N <= b] for [a <= b]. *)
Definition random_ok (env : Env) : Prop :=
  (forall (k : nat) (a b : Q), (a <= b)%Q ->
     (a <= uniform env k a b)%Q /\ (uniform env k a b <= b)%Q) /\
  (forall (k : nat) (a b : Z), (a <= b)%Z ->
     (a <= randint env k a b)%Z /\ (randint env k a b <= b)%Z).

(** An integer converts to a float64 when it rounds to a finite one, that
    is when its magnitude is below [2^1024 - 2^970]; a number of the model
    beyond that can only be an integer. *)
Definition float_overflows (q : Q) : bool :=
  Qle_bool (inject_Z (2 ^ 1024 - 2 ^ 970)) q
  || Qle_bool q (inject_Z (- (2 ^ 1024 - 2 ^ 970))).

(** [float(x)] *)
Definition py_float (env : Env) (j : json) : result Q :=
  match j with
  | JNum q => if float_overflows q
              then Raise "OverflowError: int too large to convert to float"
              else Ok q
  | JBool b => Ok (if b then 1%Q else 0%Q)
  | JStr s =>
      match float_of_str env s with
      | Some q => Ok q
      | None => Raise "ValueError: could not convert string to float"
      end
  | _ => Raise "TypeError: float() argument must be a string or a real number"
  end.

(** [int(x)]: a number is truncated towards zero. *)
Definition py_int (env : Env) (j : json) : result Z :=
  match j with
  | JNum q => Ok (Z.quot (Qnum q) (Zpos (Qden q)))
  | JBool b => Ok (if b then 1%Z else 0%Z)
  | JStr s =>
      match int_of_str env s with
      | Some n => Ok n
      | None => Raise "ValueError: invalid literal for int()"
      end
  | _ => Raise "TypeError: int() argument must be a string or a real number"
  end.

(** *** The SDK and the service object *)

(** A bar of [get_bars]: every number has been through [float] or [int]. *)
Record OHLCV : Type := {
  timestamp : json;
  open : Q;
  high : Q;
  low : Q;
  close : Q;
  volume : Z
}.

Record Quote : Type := {
  quote_symbol : json;
  price : Q;
  bid : Q;
  ask : Q;
  quote_volume : Z;
  change : Q;
  change_percent : Q
}.

(** The dictionary sent to the SDK's [place_order]; [request_price] is
    [None] when the dictionary has no ["price"] key. *)
Record OrderRequest : Type := {
  request_account_id : json;
  request_symbol : string;
  request_side : string;
  request_order_type : string;
  request_quantity : Z;
  request_time_in_force : string;
  request_price : option Q
}.

Record OrderResponse : Type := {
  order_id : json;
  order_status : json;
  order_message : string
}.

(** The calls the service makes on the SDK client.  Each gives the
    [data] of the response, empty when the response or its data is falsy,
    or raises. *)
Record Client : Type := {
  market_get_quote : json -> result (list (gmap string json));
  market_get_bars : json -> string -> Z -> result (list (gmap string json));
  market_search_instruments : string -> result (list (gmap string json));
  trade_place_order : OrderRequest -> result (gmap string json);
  account_get_account_list : result (list (gmap string json))
}.

Record WebullService : Type := {
  app_key : option string;
  app_secret : option string;
  environment : string;
  client : option Client;
  account_id : json
}.

(** [if s:] for an optional string. *)
Definition given (s : option string) : bool :=
  match s with
  | Some v => negb (String.eqb v "")
  | None => false
  end.

(** [WebullService.__init__].  [sdk] is [None] when the SDK could not be
    imported; otherwise it is the constructor of the client. *)
Definition init (sdk : option (option string -> option string -> result Client))
    (key secret : option string) (env_name : string) : WebullService :=
  let bare := {| app_key := key; app_secret := secret; environment := env_name;
                 client := None; account_id := JNull |} in
  match sdk with
  | Some new_client =>
      if given key && given secret then
        match new_client key secret with
        | Ok c =>
            {| app_key := key; app_secret := secret; environment := env_name;
               client := Some c;
               account_id :=
                 match account_get_account_list c with
                 | Ok (first :: _) => dict_get first "account_id" JNull
                 | _ => JNull
                 end |}
        | Raise _ => bare
        end
      else bare
  | None => bare
  end.

(** [get_webull_service]: the module-level instance is created by the
    first call and returned by every call. *)
Definition get_webull_service
    (sdk : option (option string -> option string -> result Client))
    (key secret : option string) (env_name : string)
    (instance : option WebullService) : WebullService * option WebullService :=
  match instance with
  | Some svc => (svc, Some svc)
  | None => let svc := init sdk key secret env_name in (svc, Some svc)
  end.

(** *** Sample data *)

Definition sample_bar (env : Env) (k : nat) (limit : Z) (i : nat) : OHLCV :=
  let open_price := (150 + uniform env (k + 5 * i) (-2) 2)%Q in
  let close_price := (open_price + uniform env (k + 5 * i + 1) (-1) 1)%Q in
  let high_price := (py_max open_price close_price
                     + uniform env (k + 5 * i + 2) 0 (1 # 2))%Q in
  let low_price := (py_min open_price close_price
                    - uniform env (k + 5 * i + 3) 0 (1 # 2))%Q in
  {| timestamp := JStr (isoformat_days_ago env i (limit - Z.of_nat i));
     open := round2 open_price;
     high := round2 high_price;
     low := round2 low_price;
     close := round2 close_price;
     volume := randint env (k + 5 * i + 4) 500000 2000000 |}.

(** [_get_sample_bars]; [k] calls have been made to the generator before. *)
Definition _get_sample_bars (env : Env) (k : nat) (symbol : json) (limit : Z)
  : list OHLCV :=
  map (sample_bar env k limit) (seq 0 (Z.to_nat limit)).

Definition _get_sample_quote (env : Env) (k : nat) (symbol : json) : Quote :=
  {| quote_symbol := symbol;
     price := round2 (150 + uniform env k (-5) 5);
     bid := round2 (150 - (5 # 100));
     ask := round2 (150 + (5 # 100));
     quote_volume := randint env (k + 1) 1000000 10000000;
     change := round2 (uniform env (k + 2) (-2) 2);
     change_percent := round2 (uniform env (k + 3) (- (3 # 2)) (3 # 2)) |}.

(** *** Market data *)

Definition convert_bar (env : Env) (bar : gmap string json) : result OHLCV :=
  o <- py_float env (dict_get bar "open" (JNum 0)) ;;
  h <- py_float env (dict_get bar "high" (JNum 0)) ;;
  l <- py_float env (dict_get bar "low" (JNum 0)) ;;
  c <- py_float env (dict_get bar "close" (JNum 0)) ;;
  v <- py_int env (dict_get bar "volume" (JNum 0)) ;;
  Ok {| timestamp := dict_get bar "timestamp" JNull;
        open := o; high := h; low := l; close := c; volume := v |}.

Fixpoint convert_bars (env : Env) (data : list (gmap string json))
  : result (list OHLCV) :=
  match data with
  | [] => Ok []
  | bar :: rest =>
      b <- convert_bar env bar ;;
      bs <- convert_bars env rest ;;
      Ok (b :: bs)
  end.

(** [get_bars]: the bars of the SDK, or sample bars when there is no
    client, the call raises, the answer is empty or a field does not
    convert. *)
Definition get_bars (svc : WebullService) (env : Env) (k : nat)
    (symbol : json) (timeframe : string) (limit : Z) : list OHLCV :=
  match client svc with
  | None => _get_sample_bars env k symbol limit
  | Some c =>
      match (data <- market_get_bars c symbol timeframe limit ;;
             match data with
             | [] => Ok None
             | _ :: _ => bars <- convert_bars env data ;; Ok (Some bars)
             end) with
      | Ok (Some bars) => bars
      | Ok None => _get_sample_bars env k symbol limit
      | Raise _ => _get_sample_bars env k symbol limit
      end
  end.

Definition convert_quote (env : Env) (symbol : json) (quote_data : gmap string json)
  : result Quote :=
  p <- py_float env (dict_get quote_data "last_price" (JNum 0)) ;;
  b <- py_float env (dict_get quote_data "bid_price" (JNum 0)) ;;
  a <- py_float env (dict_get quote_data "ask_price" (JNum 0)) ;;
  v <- py_int env (dict_get quote_data "volume" (JNum 0)) ;;
  ch <- py_float env (dict_get quote_data "change" (JNum 0)) ;;
  r <- py_float env (dict_get quote_data "change_ratio" (JNum 0)) ;;
  Ok {| quote_symbol := symbol; price := p; bid := b; ask := a;
        quote_volume := v; change := ch; change_percent := (r * 100)%Q |}.

(** [get_quote]: [Optional] in the source, hence the [option]. *)
Definition get_quote (svc : WebullService) (env : Env) (k : nat) (symbol : json)
  : option Quote :=
  match client svc with
  | None => Some (_get_sample_quote env k symbol)
  | Some c =>
      match (data <- market_get_quote c symbol ;;
             match data with
             | [] => Ok None
             | quote_data :: _ => q <- convert_quote env symbol quote_data ;; Ok (Some q)
             end) with
      | Ok (Some q) => Some q
      | Ok None => Some (_get_sample_quote env k symbol)
      | Raise _ => Some (_get_sample_quote env k symbol)
      end
  end.

(** *** Symbol search *)

(** [s.lower()] and [s.upper()] for a string of ASCII characters: the
    letters A to Z and a to z change, nothing else does.  On other
    characters [str.lower] and [str.upper] follow the Unicode tables, which
    are not modelled; [ascii_only] marks the strings these definitions
    speak for. *)
Fixpoint ascii_only (s : string) : bool :=
  match s with
  | EmptyString => true
  | String c rest => (Ascii.nat_of_ascii c <? 128)%nat && ascii_only rest
  end.

Definition lower_ascii (c : Ascii.ascii) : Ascii.ascii :=
  let n := Ascii.nat_of_ascii c in
  if (65 <=? n)%nat && (n <=? 90)%nat then Ascii.ascii_of_nat (n + 32) else c.

Definition upper_ascii (c : Ascii.ascii) : Ascii.ascii :=
  let n := Ascii.nat_of_ascii c in
  if (97 <=? n)%nat && (n <=? 122)%nat then Ascii.ascii_of_nat (n - 32) else c.

Fixpoint lower (s : string) : string :=
  match s with
  | EmptyString => EmptyString
  | String c rest => String (lower_ascii c) (lower rest)
  end.

Fixpoint upper (s : string) : string :=
  match s with
  | EmptyString => EmptyString
  | String c rest => String (upper_ascii c) (upper rest)
  end.

Fixpoint is_prefix (p s : string) : bool :=
  match p, s with
  | EmptyString, _ => true
  | String a p', String b s' => Ascii.eqb a b && is_prefix p' s'
  | String _ _, EmptyString => false
  end.

(** [needle in hay] *)
Fixpoint contains (needle hay : string) : bool :=
  is_prefix needle hay ||
  match hay with
  | EmptyString => false
  | String _ rest => contains needle rest
  end.

Record SymbolEntry : Type := {
  entry_symbol : json;
  entry_name : json
}.

(** The table of [_get_sample_symbols], in the order of the dictionary. *)
Definition sample_symbols : list (string * (string * string)) :=
  [ ("apple", ("AAPL", "Apple Inc."));
    ("google", ("GOOGL", "Alphabet Inc."));
    ("microsoft", ("MSFT", "Microsoft Corporation"));
    ("tesla", ("TSLA", "Tesla, Inc."));
    ("amazon", ("AMZN", "Amazon.com, Inc.")) ].

Definition entry_of (row : string * (string * string)) : SymbolEntry :=
  {| entry_symbol := JStr (fst (snd row)); entry_name := JStr (snd (snd row)) |}.

Definition matches (query_lower : string) (row : string * (string * string)) : bool :=
  contains query_lower (fst row) || contains query_lower (lower (fst (snd row))).

Definition _get_sample_symbols (query : string) : list SymbolEntry :=
  map entry_of (List.filter (matches (lower query)) sample_symbols).

Definition search_symbols (svc : WebullService) (query : string) : list SymbolEntry :=
  match client svc with
  | None => _get_sample_symbols query
  | Some c =>
      match market_search_instruments c query with
      | Ok (item :: items) =>
          map (fun it => {| entry_symbol := dict_get it "symbol" JNull;
                            entry_name := dict_get it "name" JNull |})
              (item :: items)
      | Ok [] => _get_sample_symbols query
      | Raise _ => _get_sample_symbols query
      end
  end.

(** *** Orders *)

Definition demo_order : OrderResponse :=
  {| order_id := JStr "demo_order_123";
     order_status := JStr "demo";
     order_message := "Demo mode - order not actually placed" |}.

Definition is_limit (order_type : string) : bool :=
  String.eqb order_type "LIMIT" || String.eqb order_type "STOP_LIMIT".

(** [if price:] for an optional decimal. *)
Definition priced (price : option Q) : bool :=
  match price with
  | Some p => negb (Qeq_bool p 0)
  | None => false
  end.

(** The dictionary [place_order] builds for the SDK. *)
Definition order_request (svc : WebullService) (symbol side : string) (quantity : Z)
    (order_type : string) (price : option Q) (time_in_force : string) : OrderRequest :=
  {| request_account_id := account_id svc;
     request_symbol := symbol;
     request_side := side;
     request_order_type := order_type;
     request_quantity := quantity;
     request_time_in_force := time_in_force;
     request_price := if is_limit order_type && priced price then price else None |}.

(** [place_order]: the answer, and the requests that went to the SDK. *)
Definition place_order (svc : WebullService) (symbol side : string) (quantity : Z)
    (order_type : string) (price : option Q) (time_in_force : string)
  : option OrderResponse * list OrderRequest :=
  match client svc with
  | None => (Some demo_order, [])
  | Some c =>
      if negb (truthy (account_id svc)) then (Some demo_order, [])
      else
        let request := order_request svc symbol side quantity order_type price
                                     time_in_force in
        match trade_place_order c request with
        | Ok data =>
            if decide (data = ∅) then (None, [request])
            else (Some {| order_id := dict_get data "order_id" JNull;
                          order_status := dict_get data "status" JNull;
                          order_message := "Order placed successfully" |},
                  [request])
        | Raise _ => (None, [request])
        end
  end.

(** [cancel_order] *)
Definition cancel_order (svc : WebullService) (order : string) : bool :=
  match client svc with
  | None => false
  | Some _ => false
  end.

End Webull.

(** ** The Webull routes ([routes/webull.py]) *)

(** The answer of a route: the body, or the [HTTPException] raised. *)
Inductive http (A : Type) : Type :=
| Http200 (body : A)
| HttpError (code : nat) (detail : string).
Arguments Http200 {A} body.
Arguments HttpError {A} code detail.

Module WebullRoutes.

Record PlaceOrderRequest : Type := {
  symbol : string;
  side : string;
  quantity : Z;
  order_type : string;
  price : option Q;
  time_in_force : string
}.

Definition get_quote (svc : Webull.WebullService) (env : Webull.Env) (k : nat)
    (symbol : string) : http Webull.Quote :=
  match Webull.get_quote svc env k (JStr (Webull.upper symbol)) with
  | Some quote => Http200 quote
  | None => HttpError 404 ("Quote not found for " ++ symbol)
  end.

Definition get_bars (svc : Webull.WebullService) (env : Webull.Env) (k : nat)
    (symbol timeframe : string) (limit : Z) : list Webull.OHLCV :=
  Webull.get_bars svc env k (JStr (Webull.upper symbol)) timeframe limit.

Definition search_symbols (svc : Webull.WebullService) (query : string)
  : list Webull.SymbolEntry :=
  Webull.search_symbols svc query.

Definition valid_order_type (order_type : string) : bool :=
  String.eqb order_type "MARKET" || String.eqb order_type "LIMIT" ||
  String.eqb order_type "STOP" || String.eqb order_type "STOP_LIMIT".

Definition place_order (svc : Webull.WebullService) (request : PlaceOrderRequest)
  : http Webull.OrderResponse * list Webull.OrderRequest :=
  if negb (valid_order_type (order_type request)) then
    (HttpError 400 "Invalid order type", [])
  else if Webull.is_limit (order_type request) && negb (Webull.priced (price request)) then
    (HttpError 400 "Price required for LIMIT orders", [])
  else
    match Webull.place_order svc (Webull.upper (symbol request)) (side request)
            (quantity request) (order_type request) (price request)
            (time_in_force request) with
    | (Some order, sent) => (Http200 order, sent)
    | (None, sent) => (HttpError 400 "Failed to place order. Check API credentials.", sent)
    end.

Definition cancel_order (svc : Webull.WebullService) (order : string) : http string :=
  if Webull.cancel_order svc order then Http200 "Order cancelled successfully"
  else HttpError 400 "Failed to cancel order".

End WebullRoutes.

(** ** The service behind the signal checks *)

(** The bar the checks see: [float(bar["close"])] succeeds on every bar of
    [get_bars]. *)
Definition to_bar (b : Webull.OHLCV) : Bar.t :=
  {| Bar.timestamp := match Webull.timestamp b with JStr s => s | _ => "" end;
     Bar.open := Webull.open b;
     Bar.high := Webull.high b;
     Bar.low := Webull.low b;
     Bar.close := Some (Webull.close b);
     Bar.volume := Webull.volume b |}.

(** A run of the task whose bars come from the service [svc]. *)
Definition world_of_service (svc : Webull.WebullService) (env : Webull.Env) (k : nat)
    (parse : string -> option uuid) (lib : option Talib)
    (commits : list Trade.t -> option string) (now : timestamp) : World :=
  {| UUID := parse;
     talib := lib;
     get_bars := fun symbol timeframe limit =>
                   Ok (map to_bar (Webull.get_bars svc env k symbol timeframe
                                                   (Z.of_nat limit)));
     commit_error := commits;
     utcnow := now |}.

(** ** Notions used in the statements on the service *)

(** The low is the lowest and the high the highest price of the bar. *)
Definition consistent_bar (b : Webull.OHLCV) : Prop :=
  (Webull.low b <= Webull.open b)%Q /\ (Webull.open b <= Webull.high b)%Q /\
  (Webull.low b <= Webull.close b)%Q /\ (Webull.close b <= Webull.high b)%Q.

(** A generator that always returns the lower bound, a clock that prints
    nothing, and parsers that accept nothing. *)
Definition lowest_env : Webull.Env :=
  {| Webull.uniform := fun _ a _ => a;
     Webull.randint := fun _ a _ => a;
     Webull.isoformat_days_ago := fun _ _ => "2024-01-01T00:00:00";
     Webull.float_of_str := fun _ => None;
     Webull.int_of_str := fun _ => None |}.

(** The service the application gets with its default settings: no key. *)
Definition demo_service : Webull.WebullService :=
  Webull.init None None None "production".

(** Element-wise, [bars] is the conversion of [data]. *)
Definition converted (env : Webull.Env) (data : list (gmap string json))
    (bars : list Webull.OHLCV) : Prop :=
  Forall2 (fun d b => Webull.convert_bar env d = Ok b) data bars.

(** An SDK whose market data is the given bars and which refuses every
    order. *)
Definition bars_client (data : list (gmap string json)) : Webull.Client :=
  {| Webull.market_get_quote := fun _ => Ok [];
     Webull.market_get_bars := fun _ _ _ => Ok data;
     Webull.market_search_instruments := fun _ => Ok [];
     Webull.trade_place_order := fun _ => Raise "TradeError: rejected";
     Webull.account_get_account_list := Ok [] |}.

Definition service_of (c : Webull.Client) (account : json) : Webull.WebullService :=
  {| Webull.app_key := Some "key";
     Webull.app_secret := Some "secret";
     Webull.environment := "production";
     Webull.client := Some c;
     Webull.account_id := account |}.

Definition good_bar : gmap string json :=
  <["timestamp" := JStr "2024-01-02"]>
  (<["open" := JNum 10]> (<["high" := JNum 12]> (<["low" := JNum 9]>
  (<["close" := JNum 11]> (<["volume" := JNum 1000]> ∅))))).

(** A bar whose close is JSON null. *)
Definition bad_bar : gmap string json := <["close" := JNull]> good_bar.

(** A run of the task on the bars of the unconfigured service. *)
Definition service_world : World :=
  world_of_service demo_service lowest_env 0 demo_UUID (Some reference_talib)
                   (fun _ => None) 1700000000%N.

(** An SDK that accepts every order and has one account. *)
Definition accepting_client : Webull.Client :=
  {| Webull.market_get_quote := fun _ => Ok [];
     Webull.market_get_bars := fun _ _ _ => Ok [];
     Webull.market_search_instruments := fun _ => Ok [];
     Webull.trade_place_order :=
       fun _ => Ok (<["order_id" := JStr "42"]> (<["status" := JStr "SUBMITTED"]> ∅));
     Webull.account_get_account_list := Ok [<["account_id" := JStr "A1"]> ∅] |}.

Definition working_sdk (key secret : option string) : result Webull.Client :=
  Ok accepting_client.

Definition limit_order : WebullRoutes.PlaceOrderRequest :=
  {| WebullRoutes.symbol := "aapl";
     WebullRoutes.side := "BUY";
     WebullRoutes.quantity := 10;
     WebullRoutes.order_type := "LIMIT";
     WebullRoutes.price := Some (150 # 1);
     WebullRoutes.time_in_force := "DAY" |}.

(** The figures of a sample quote lie where the source draws them. *)
Definition sample_quote_range (q : Webull.Quote) : Prop :=
  (145 <= Webull.price q)%Q /\ (Webull.price q <= 155)%Q /\
  Webull.bid q = (14995 # 100)%Q /\ Webull.ask q = (15005 # 100)%Q /\
  (1000000 <= Webull.quote_volume q)%Z /\ (Webull.quote_volume q <= 10000000)%Z /\
  (-2 <= Webull.change q)%Q /\ (Webull.change q <= 2)%Q /\
  (- (3 # 2) <= Webull.change_percent q)%Q /\ (Webull.change_percent q <= 3 # 2)%Q.

(** ** The portfolio routes ([routes/portfolio.py]) *)

Module PortfolioRoutes.







(** [get_portfolios] *)
Definition get_portfolios (user : uuid) (db : DB) : list Portfolio.t :=
  List.filter (fun p => N.eqb (Portfolio.user_id p) user) (portfolios db).

(** [get_portfolio]: [None] is the 404 answer. *)
Definition get_portfolio (portfolio_id user : uuid) (db : DB) : option Portfolio.t :=
  List.find (StrategyRoutes.owns_portfolio portfolio_id user) (portfolios db).

End PortfolioRoutes.

(** ** The positions route ([get_positions], [routes/trading.py]) *)

Module TradingRoutes.

(** [Position.portfolio.has(user_id=...)]: the portfolio of the position
    belongs to the user. *)
Definition of_user (user : uuid) (db : DB) (pos : Position.t) : bool :=
  existsb (fun p => N.eqb (Portfolio.id p) (Position.portfolio_id pos)
                    && N.eqb (Portfolio.user_id p) user)
          (portfolios db).

(** [get_positions]; the portfolio filter is applied when the parameter is
    given. *)
Definition get_positions (portfolio_id : option uuid) (user : uuid) (db : DB)
  : list Position.t :=
  let owned := List.filter (fun pos => of_user user db pos
                                       && Qltb 0 (Position.quantity pos))
                           (positions db) in
  match portfolio_id with
  | Some pid => List.filter (fun pos => N.eqb (Position.portfolio_id pos) pid) owned
  | None => owned
  end.

End TradingRoutes.

(** * Properties *)

(** ** Comparisons *)

Lemma Qltb_lt (x y : Q) : Qltb x y = true <-> (x < y)%Q.
Proof.
  unfold Qltb. rewrite negb_true_iff.
  destruct (Qle_bool y x) eqn:E.
  - apply Qle_bool_iff in E. split; [discriminate | intros H; exfalso; lra].
  - split; [intros _ | reflexivity].
    destruct (Qlt_le_dec x y) as [H | H]; [exact H |].
    apply Qle_bool_iff in H. congruence.
Qed.

Lemma flt_spec (a b : option Q) :
  flt a b = true <-> exists x y, a = Some x /\ b = Some y /\ (x < y)%Q.
Proof.
  destruct a as [x |], b as [y |]; simpl; split.
  - intros H. exists x, y. rewrite <- Qltb_lt. auto.
  - intros (x' & y' & Hx & Hy & H). inversion Hx. inversion Hy. subst.
    now apply Qltb_lt.
  - discriminate.
  - intros (x' & y' & _ & Hy & _). discriminate.
  - discriminate.
  - intros (x' & y' & Hx & _ & _). discriminate.
  - discriminate.
  - intros (x' & y' & Hx & _ & _). discriminate.
Qed.

Lemma flt_trans (a b c : option Q) :
  flt a b = true -> flt b c = true -> flt a c = true.
Proof.
  intros H1 H2.
  apply flt_spec in H1 as (x & y & -> & -> & H1).
  apply flt_spec in H2 as (y' & z & Hy & -> & H2).
  inversion Hy. subst. apply flt_spec. exists x, z. repeat split. lra.
Qed.

Lemma flt_nan_l (b : option Q) : flt None b = false.
Proof. reflexivity. Qed.

Lemma flt_nan_r (a : option Q) : flt a None = false.
Proof. now destruct a. Qed.

(** ** Arrays *)

Lemma closes_of_length (bars : list Bar.t) (closes : list Q) :
  closes_of bars = Ok closes -> length closes = length bars.
Proof.
  revert closes. induction bars as [| bar rest IH]; intros closes H; simpl in H.
  - inversion H. reflexivity.
  - destruct (Bar.close bar) as [c |]; [| discriminate].
    destruct (closes_of rest) as [cs | e] eqn:E; simpl in H; [| discriminate].
    inversion H. simpl. f_equal. now apply IH.
Qed.

Lemma last_nonempty {A : Type} (a : list A) :
  (0 < length a)%nat -> exists x, last a = Some x.
Proof.
  induction a as [| x [| y rest] IH]; simpl; intros H.
  - lia.
  - now exists x.
  - apply IH. simpl. lia.
Qed.

Lemma index_last_ok {A : Type} (a : list A) :
  (0 < length a)%nat -> exists x, last a = Some x /\ index_last a = Ok x.
Proof.
  intros H. destruct (last_nonempty a H) as [x Hx].
  exists x. unfold index_last. now rewrite Hx.
Qed.

(** ** Momentum *)

Lemma momentum_body_eval (w : World) (lib : Talib) (strategy : Strategy.t)
    (bars : list Bar.t) (closes : list Q) :
  get_bars w (dict_get (Strategy.parameters strategy) "symbol" (JStr "AAPL")) "1D" 100
    = Ok bars ->
  closes_of bars = Ok closes ->
  (50 <= length bars)%nat ->
  let rsi := latest (RSI lib closes 14) in
  let macd := latest (MACD lib closes 12 26 9).1.1 in
  let signal := latest (MACD lib closes 12 26 9).1.2 in
  or_none (momentum_body w lib strategy) =
    if flt rsi (Some 30%Q) && flt signal macd
    then Some (intent_of strategy "BUY" (latest_close closes))
    else if flt (Some 70%Q) rsi && flt macd signal
    then Some (intent_of strategy "SELL" (latest_close closes))
    else None.
Proof.
  intros Hbars Hcloses Hlen. cbv zeta.
  unfold momentum_body. rewrite Hbars. cbn [rbind].
  destruct (Nat.ltb_spec (length bars) 50) as [Hlt | _]; [lia |].
  rewrite Hcloses. cbn [rbind].
  pose proof (closes_of_length _ _ Hcloses) as Hlc.
  destruct (MACD lib closes 12 26 9) as [[macd signal] hist]. cbn [fst snd].
  destruct (index_last_ok closes) as (c & Hc & _); [lia |].
  unfold latest_close, latest, index_last. rewrite Hc.
  destruct (last (RSI lib closes 14)) as [r |],
           (last macd) as [m |], (last signal) as [sg |];
    cbn [rbind or_none];
    rewrite ?flt_nan_r, ?flt_nan_l, ?andb_false_r; try reflexivity.
  destruct (flt r (Some 30%Q) && flt sg m); [reflexivity |].
  destruct (flt (Some 70%Q) r && flt m sg); reflexivity.
Qed.

Lemma intent_side_neq (strategy : Strategy.t) (p : Q) :
  intent_of strategy "BUY" p <> intent_of strategy "SELL" p.
Proof. unfold intent_of. intros H. inversion H. Qed.

(** C5. With the indicator library importable and a provider answer of at
    least 50 well-formed bars, the momentum check returns the BUY intent
    exactly when the latest RSI(14) is below 30 and the latest MACD(12,26,9)
    line is above its signal line, the SELL intent exactly when the RSI is
    above 70 and the MACD line is below its signal line, and nothing
    otherwise; the intent carries the [quantity] parameter of the strategy
    (10 when the parameter set has none) and the latest close as price. *)
Theorem momentum_signal_rule (w : World) (lib : Talib) (strategy : Strategy.t)
    (bars : list Bar.t) (closes : list Q) :
  talib w = Some lib ->
  get_bars w (dict_get (Strategy.parameters strategy) "symbol" (JStr "AAPL")) "1D" 100
    = Ok bars ->
  closes_of bars = Ok closes ->
  (50 <= length bars)%nat ->
  let rsi := latest (RSI lib closes 14) in
  let macd := latest (MACD lib closes 12 26 9).1.1 in
  let signal := latest (MACD lib closes 12 26 9).1.2 in
  let buy := intent_of strategy "BUY" (latest_close closes) in
  let sell := intent_of strategy "SELL" (latest_close closes) in
  (_check_momentum_signal w strategy = Some buy <->
     flt rsi (Some 30%Q) = true /\ flt signal macd = true) /\
  (_check_momentum_signal w strategy = Some sell <->
     flt (Some 70%Q) rsi = true /\ flt macd signal = true) /\
  (_check_momentum_signal w strategy = None <->
     ~ (flt rsi (Some 30%Q) = true /\ flt signal macd = true) /\
     ~ (flt (Some 70%Q) rsi = true /\ flt macd signal = true)) /\
  Signal.quantity buy = dict_get (Strategy.parameters strategy) "quantity" (JNum 10) /\
  Signal.quantity sell = dict_get (Strategy.parameters strategy) "quantity" (JNum 10) /\
  Signal.price buy = latest_close closes /\
  Signal.price sell = latest_close closes.
Proof.
  intros Hlib Hbars Hcloses Hlen. cbv zeta.
  unfold _check_momentum_signal. rewrite Hlib.
  rewrite (momentum_body_eval w lib strategy bars closes Hbars Hcloses Hlen).
  set (rsi := latest (RSI lib closes 14)).
  set (macd := latest (MACD lib closes 12 26 9).1.1).
  set (signal := latest (MACD lib closes 12 26 9).1.2).
  pose proof (intent_side_neq strategy (latest_close closes)) as Hne.
  assert (Hexcl : flt (Some 70%Q) rsi = true -> flt rsi (Some 30%Q) = false).
  { intros H. destruct (flt rsi (Some 30%Q)) eqn:E; [| reflexivity].
    pose proof (flt_trans _ _ _ H E) as H'. simpl in H'.
    apply Qltb_lt in H'. exfalso. lra. }
  destruct (flt rsi (Some 30%Q)) eqn:E1, (flt signal macd) eqn:E2;
    destruct (flt (Some 70%Q) rsi) eqn:E3, (flt macd signal) eqn:E4;
    cbn [andb];
    try (specialize (Hexcl eq_refl); discriminate);
    repeat split; try reflexivity; try discriminate; try tauto; try congruence;
    intros; try intuition congruence.
Qed.

Lemma momentum_signal_rule_witness :
  _check_momentum_signal (demo_world (map bar_at slowing_fall))
                         (demo_strategy "momentum" true)
  = Some (intent_of (demo_strategy "momentum" true) "BUY" (latest_close slowing_fall)).
Proof.
  apply (proj1 (momentum_signal_rule (demo_world (map bar_at slowing_fall))
                  reference_talib (demo_strategy "momentum" true)
                  (map bar_at slowing_fall) slowing_fall
                  eq_refl eq_refl eq_refl
                  ltac:(vm_compute; lia))).
  split; vm_compute; reflexivity.
Defined.

(** On [slowing_fall] the reference library reports an RSI of 0 and a MACD
    line above its signal line: the check emits BUY at the latest close
    with the configured quantity. *)
Example momentum_buy_on_slowing_fall :
  _check_momentum_signal (demo_world (map bar_at slowing_fall))
                         (demo_strategy "momentum" true)
  = Some {| Signal.symbol := JStr "AAPL"; Signal.side := "BUY";
            Signal.quantity := JNum 10; Signal.price := (1172 # 10)%Q |}.
Proof. vm_compute. reflexivity. Qed.

(** ** Mean reversion *)

Lemma approx_sqrt_band (sd : Q) (v : Q) : approx_sqrt sd v -> (0 <= sd)%Q.
Proof. now intros (H & _). Qed.

Lemma mean_reversion_body_eval (w : World) (lib : Talib) (strategy : Strategy.t)
    (bars : list Bar.t) (closes : list Q) :
  bollinger_spec lib ->
  get_bars w (dict_get (Strategy.parameters strategy) "symbol" (JStr "AAPL")) "1D" 50
    = Ok bars ->
  closes_of bars = Ok closes ->
  (20 <= length bars)%nat ->
  let upper := latest (BBANDS lib closes 20 2 2).1.1 in
  let lower := latest (BBANDS lib closes 20 2 2).2 in
  mean_reversion_body w lib strategy =
    Ok (if flt (Some (latest_close closes)) lower
        then Some (intent_of strategy "BUY" (latest_close closes))
        else if flt upper (Some (latest_close closes))
        then Some (intent_of strategy "SELL" (latest_close closes))
        else None).
Proof.
  intros Hspec Hbars Hcloses Hlen. cbv zeta.
  unfold mean_reversion_body. rewrite Hbars. cbn [rbind].
  destruct (Nat.ltb_spec (length bars) 20) as [Hlt | _]; [lia |].
  rewrite Hcloses. cbn [rbind].
  pose proof (closes_of_length _ _ Hcloses) as Hlc.
  destruct (Hspec closes) as (m & sd & u & l & Hu & Hm & Hl & _); [lia |].
  destruct (BBANDS lib closes 20 2 2) as [[upper middle] lower].
  cbn [fst snd] in *.
  destruct (index_last_ok closes) as (c & Hc & ->); [lia |].
  unfold index_last, latest, latest_close. rewrite Hu, Hm, Hl, Hc. cbn [rbind].
  destruct (flt (Some c) (Some l)); [reflexivity |].
  destruct (flt (Some u) (Some c)); reflexivity.
Qed.

Lemma flat_then_drop_stats :
  (mean (window 20 flat_then_drop) == 99)%Q /\
  (variance (window 20 flat_then_drop) == 19)%Q.
Proof. split; vm_compute; reflexivity. Qed.

Lemma approx_sqrt_19 (sd v : Q) : (v == 19)%Q -> approx_sqrt sd v -> (sd < 19 # 2)%Q.
Proof.
  intros Hv (H0 & _ & [H | H]); unfold eps in *.
  - lra.
  - rewrite Hv in H. destruct (Qlt_le_dec sd (19 # 2)) as [Hlt | Hge]; [exact Hlt |].
    exfalso. nra.
Qed.

(** C6. With the indicator library importable and computing Bollinger
    bands, for a provider answer of at least 20 well-formed bars the
    mean-reversion check returns the BUY intent exactly when the latest
    close is below the latest lower band of BBANDS(20, 2, 2), the SELL
    intent exactly when it is above the latest upper band, and nothing
    otherwise; on 20 flat bars at 100 followed by one bar at 80 it returns
    the BUY intent with the configured quantity at price 80. *)
Theorem mean_reversion_signal_rule (w : World) (lib : Talib) :
  talib w = Some lib ->
  bollinger_spec lib ->
  (forall (strategy : Strategy.t) (bars : list Bar.t) (closes : list Q),
     get_bars w (dict_get (Strategy.parameters strategy) "symbol" (JStr "AAPL")) "1D" 50
       = Ok bars ->
     closes_of bars = Ok closes ->
     (20 <= length bars)%nat ->
     let upper := latest (BBANDS lib closes 20 2 2).1.1 in
     let lower := latest (BBANDS lib closes 20 2 2).2 in
     let price := latest_close closes in
     (_check_mean_reversion_signal w strategy = Some (intent_of strategy "BUY" price) <->
        flt (Some price) lower = true) /\
     (_check_mean_reversion_signal w strategy = Some (intent_of strategy "SELL" price) <->
        flt upper (Some price) = true) /\
     (_check_mean_reversion_signal w strategy = None <->
        flt (Some price) lower = false /\ flt upper (Some price) = false)) /\
  (forall (strategy : Strategy.t) (bars : list Bar.t),
     get_bars w (dict_get (Strategy.parameters strategy) "symbol" (JStr "AAPL")) "1D" 50
       = Ok bars ->
     closes_of bars = Ok flat_then_drop ->
     _check_mean_reversion_signal w strategy =
       Some {| Signal.symbol := dict_get (Strategy.parameters strategy) "symbol" (JStr "AAPL");
               Signal.side := "BUY";
               Signal.quantity := dict_get (Strategy.parameters strategy) "quantity" (JNum 10);
               Signal.price := 80%Q |}).
Proof.
  intros Hlib Hspec. split.
  - intros strategy bars closes Hbars Hcloses Hlen. cbv zeta.
    unfold _check_mean_reversion_signal. rewrite Hlib.
    rewrite (mean_reversion_body_eval w lib strategy bars closes Hspec Hbars Hcloses Hlen).
    cbn [or_none].
    pose proof (intent_side_neq strategy (latest_close closes)) as Hne.
    assert (Hexcl : flt (latest (BBANDS lib closes 20 2 2).1.1) (Some (latest_close closes)) = true ->
                    flt (Some (latest_close closes)) (latest (BBANDS lib closes 20 2 2).2) = false).
    { pose proof (closes_of_length _ _ Hcloses) as Hlc.
      destruct (Hspec closes) as (m & sd & u & l & Hu & _ & Hl & _ & Eu & El & Hsd); [lia |].
      apply approx_sqrt_band in Hsd.
      unfold latest. rewrite Hu, Hl. intros H.
      destruct (flt (Some (latest_close closes)) (Some l)) eqn:E; [| reflexivity].
      simpl in H, E. apply Qltb_lt in H. apply Qltb_lt in E.
      rewrite Eu in H. rewrite El in E. exfalso. lra. }
    destruct (flt (Some (latest_close closes)) (latest (BBANDS lib closes 20 2 2).2)) eqn:E1;
      destruct (flt (latest (BBANDS lib closes 20 2 2).1.1) (Some (latest_close closes))) eqn:E2;
      try (specialize (Hexcl eq_refl); discriminate);
      repeat split; try reflexivity; try discriminate; try congruence;
      intros; try intuition congruence.
  - intros strategy bars Hbars Hcloses.
    assert (Hlen : (20 <= length bars)%nat).
    { rewrite <- (closes_of_length _ _ Hcloses). vm_compute. lia. }
    unfold _check_mean_reversion_signal. rewrite Hlib.
    rewrite (mean_reversion_body_eval w lib strategy bars _ Hspec Hbars Hcloses Hlen).
    cbn [or_none].
    destruct (Hspec flat_then_drop) as (m & sd & u & l & _ & _ & Hl & Em & _ & El & Hsd).
    { vm_compute. lia. }
    destruct flat_then_drop_stats as (Hmean & Hvar).
    pose proof (approx_sqrt_19 sd _ Hvar Hsd) as Hlt.
    unfold latest. rewrite Hl.
    replace (latest_close flat_then_drop) with 80%Q by reflexivity.
    assert (E : flt (Some 80%Q) (Some l) = true).
    { simpl. apply Qltb_lt. rewrite El, Em, Hmean. lra. }
    rewrite E. reflexivity.
Qed.

(** *** The reference library computes Bollinger bands *)

Lemma last_per_bar {A : Type} (f : list Q -> A) (closes : list Q) :
  (0 < length closes)%nat -> last (per_bar f closes) = Some (f closes).
Proof.
  intros H. unfold per_bar.
  destruct (length closes) as [| k] eqn:E; [lia |].
  rewrite seq_S, map_app. cbn [map Nat.add].
  rewrite last_snoc. f_equal. f_equal.
  apply firstn_all2. lia.
Qed.

Lemma Qsquare_nonneg (d : Q) : (0 <= d * d)%Q.
Proof.
  destruct (Qlt_le_dec d 0) as [H | H].
  - assert (E : (d * d == (- d) * (- d))%Q) by ring. rewrite E.
    apply Qmult_le_0_compat; lra.
  - apply Qmult_le_0_compat; lra.
Qed.

Lemma Qsum_squares_nonneg (c : Q) (l : list Q) :
  (0 <= Qsum (map (fun x => (x - c) * (x - c)) l))%Q.
Proof.
  induction l as [| x l IH]; simpl.
  - lra.
  - pose proof (Qsquare_nonneg (x - c)). lra.
Qed.

Lemma variance_nonneg (l : list Q) : (0 <= variance l)%Q.
Proof.
  unfold variance, mean at 1. rewrite length_map.
  apply Qmult_le_0_compat.
  - apply Qsum_squares_nonneg.
  - apply Qinv_le_0_compat. change 0%Q with (inject_Z 0).
    rewrite <- Zle_Qle. lia.
Qed.

Lemma sqrt_down_approx (v : Q) : (0 <= v)%Q -> approx_sqrt (sqrt_down v) v.
Proof.
  intros Hv. unfold sqrt_down.
  set (X := (v * inject_Z (10 ^ 12))%Q).
  set (z := Qfloor X). set (r := Z.sqrt z).
  assert (HX : (0 <= X)%Q).
  { unfold X. apply Qmult_le_0_compat; [exact Hv |].
    change 0%Q with (inject_Z 0). rewrite <- Zle_Qle. lia. }
  assert (Hz : (0 <= z)%Z).
  { change 0%Z with (Qfloor 0). apply Qfloor_resp_le. exact HX. }
  pose proof (Z.sqrt_spec z Hz) as [Hlo Hhi]. fold r in Hlo, Hhi.
  assert (Hr : (0 <= r)%Z) by apply Z.sqrt_nonneg.
  pose proof (Qfloor_le X) as Hfl. pose proof (Qlt_floor X) as Hfu.
  fold z in Hfl, Hfu.
  set (R := inject_Z r).
  assert (HR : (0 <= R)%Q).
  { unfold R. change 0%Q with (inject_Z 0). now rewrite <- Zle_Qle. }
  assert (H1 : (R * R <= inject_Z z)%Q).
  { unfold R. rewrite <- inject_Z_mult, <- Zle_Qle. exact Hlo. }
  assert (H2 : (inject_Z z + 1 <= (R + 1) * (R + 1))%Q).
  { unfold R. change 1%Q with (inject_Z 1).
    rewrite <- !inject_Z_plus, <- inject_Z_mult, <- Zle_Qle. lia. }
  assert (H3 : (inject_Z (z + 1) == inject_Z z + 1)%Q).
  { rewrite inject_Z_plus. reflexivity. }
  rewrite H3 in Hfu.
  assert (Esd : (r # 1000000 == R * eps)%Q).
  { unfold R, eps, Qeq. simpl. lia. }
  assert (EX : (X == v * 1000000000000)%Q) by (unfold X; reflexivity).
  rewrite EX in Hfl, Hfu.
  unfold approx_sqrt. rewrite Esd. unfold eps. repeat split.
  - nra.
  - nra.
  - destruct (Qlt_le_dec R 1) as [Hlt | Hge]; [left; nra | right; nra].
Qed.

Lemma reference_talib_bollinger : bollinger_spec reference_talib.
Proof.
  intros closes Hlen. cbn [BBANDS reference_talib ref_BBANDS fst snd].
  set (win := window 20 closes).
  exists (Qred (mean win + 0 * sqrt_down (variance win))),
         (sqrt_down (variance win)),
         (Qred (mean win + 2 * sqrt_down (variance win))),
         (Qred (mean win + - (2) * sqrt_down (variance win))).
  rewrite !last_per_bar by lia.
  unfold ref_band.
  destruct (Nat.ltb_spec (length closes) 20) as [Hlt | _]; [lia |].
  fold win.
  split; [reflexivity |]. split; [reflexivity |]. split; [reflexivity |].
  rewrite !Qred_correct.
  split; [ring |]. split; [ring |]. split; [ring |].
  apply sqrt_down_approx, variance_nonneg.
Qed.

Lemma mean_reversion_signal_rule_witness :
  _check_mean_reversion_signal (demo_world (map bar_at flat_then_drop))
                               (demo_strategy "mean_reversion" true)
  = Some {| Signal.symbol := JStr "AAPL"; Signal.side := "BUY";
            Signal.quantity := JNum 10; Signal.price := 80%Q |}.
Proof.
  refine (proj2 (mean_reversion_signal_rule (demo_world (map bar_at flat_then_drop))
                   reference_talib eq_refl reference_talib_bollinger)
                (demo_strategy "mean_reversion" true)
                (map bar_at flat_then_drop) eq_refl _).
  vm_compute. reflexivity.
Defined.

(** ** Trade execution *)

(** [total_value] is not an attribute of [models.Trade]: the constructor
    refuses the keywords of [_execute_trade]. *)
Lemma Trade_constructor_raises :
  declarative_constructor "Trade" Trade_attributes Trade_keywords
  = Raise "TypeError: 'total_value' is an invalid keyword argument for Trade".
Proof. reflexivity. Qed.

(** What [_execute_trade] does: the product of quantity and price raises,
    or the constructor does; the handler rolls back and returns [None]. *)
Lemma execute_trade_eval (w : World) (portfolio : Portfolio.t) (signal : Signal.t)
    (s : Session) :
  _execute_trade w portfolio signal s = (Ok None, rolled_back s).
Proof.
  unfold _execute_trade, try_except, bind at 1, lift, py_mul.
  destruct (as_number (Signal.quantity signal)) as [q |]; [| reflexivity].
  unfold bind at 1. rewrite Trade_constructor_raises. reflexivity.
Qed.

(** C1 (amended). No exception leaves the executor and it never writes a
    position row or a portfolio balance; when a step fails, all writes are
    rolled back: nothing stays pending, the committed database is what it
    was, and the caller gets [None], an ordinary value, where the claim
    has a typed error. *)
Theorem execute_trade_all_or_nothing (w : World) (portfolio : Portfolio.t)
    (signal : Signal.t) (s : Session) :
  exists (r : option Trade.t) (s' : Session),
    _execute_trade w portfolio signal s = (Ok r, s') /\
    pending s' = [] /\
    positions (committed s') = positions (committed s) /\
    portfolios (committed s') = portfolios (committed s) /\
    (r = None -> committed s' = committed s) /\
    (no_partial_state (committed s) -> no_partial_state (committed s')).
Proof.
  exists None, (rolled_back s). rewrite execute_trade_eval.
  repeat split; auto.
Qed.

(** C1 as stated fails.  The mean-reversion check on twenty closes at 100
    and one at 80 hands the executor a BUY of 10 at 80.  A step of the
    executor fails, the constructor of the row; the caller is handed
    [None], not an error, and the job records no failure: it reports
    success, with no trade counted and the database as it was. *)
Lemma failed_trade_is_not_reported :
  let w := demo_world (map bar_at flat_then_drop) in
  let s0 := fresh_session (demo_db "mean_reversion" true) in
  let r := Success strategy_uuid_str 0 1700000000%N in
  check_signal w (demo_strategy "mean_reversion" true) = Some buy_10_at_80 /\
  declarative_constructor "Trade" Trade_attributes Trade_keywords
    = Raise "TypeError: 'total_value' is an invalid keyword argument for Trade" /\
  _execute_trade w demo_portfolio buy_10_at_80 s0 = (Ok None, s0) /\
  execute_strategy w strategy_uuid_str s0 = (Ok r, s0) /\
  status r = "success" /\
  status r <> "failed" /\
  trades_executed_of r = Some 0%nat.
Proof.
  cbv zeta. repeat split; try (vm_compute; reflexivity).
  cbn. discriminate.
Qed.

(** ** The task *)

Lemma run_signal_eval (w : World) (portfolio : Portfolio.t) (signal : option Signal.t)
    (s : Session) :
  exists (n : nat) (s' : Session),
    run_signal w portfolio signal s = (Ok n, s') /\
    portfolios (committed s') = portfolios (committed s) /\
    positions (committed s') = positions (committed s) /\
    (signal = None -> n = 0%nat /\ s' = s).
Proof.
  destruct signal as [sig |].
  - cbn [run_signal]. unfold bind. rewrite execute_trade_eval.
    exists 0%nat, (rolled_back s). repeat split. discriminate.
  - exists 0%nat, s. now repeat split.
Qed.

(** No trade is counted, and the committed database is not written. *)
Lemma run_signal_nothing (w : World) (portfolio : Portfolio.t) (signal : option Signal.t)
    (s : Session) :
  run_signal w portfolio signal s
  = (Ok 0%nat, match signal with Some _ => rolled_back s | None => s end).
Proof.
  destruct signal as [sig |]; [| reflexivity].
  cbn [run_signal]. unfold bind. now rewrite execute_trade_eval.
Qed.

(** What [execute_strategy] does, case by case. *)
Lemma execute_strategy_eval (w : World) (strategy_id : string) (s : Session) :
  execute_strategy w strategy_id s =
    match UUID w strategy_id with
    | None => (Ok (Error "badly formed hexadecimal UUID string"), rolled_back s)
    | Some u =>
        match find_active_strategy (committed s) u with
        | None => (Ok (Error "Strategy not found or inactive"), s)
        | Some strategy =>
            match find_portfolio (committed s) (Strategy.portfolio_id strategy) with
            | None => (Ok (Error "Portfolio not found"), s)
            | Some portfolio =>
                match run_signal w portfolio (check_signal w strategy) s with
                | (Ok n, s1) =>
                    match commit_error w (pending s1) with
                    | None => (Ok (Success strategy_id n (utcnow w)), flushed s1)
                    | Some e => (Ok (Error e), rolled_back s1)
                    end
                | (Raise e, s1) => (Ok (Error e), rolled_back s1)
                end
            end
        end
    end.
Proof.
  unfold execute_strategy, try_except, bind at 1, lift.
  destruct (UUID w strategy_id) as [u |]; [| reflexivity].
  unfold bind at 1, query_active_strategy.
  destruct (find_active_strategy (committed s) u) as [strategy |]; [| reflexivity].
  unfold bind at 1, query_portfolio.
  destruct (find_portfolio (committed s) (Strategy.portfolio_id strategy))
    as [portfolio |]; [| reflexivity].
  unfold bind at 1, check_signal.
  destruct (String.eqb (Strategy.strategy_type strategy) "momentum");
    [| destruct (String.eqb (Strategy.strategy_type strategy) "mean_reversion")].
  - destruct (run_signal w portfolio (_check_momentum_signal w strategy) s)
      as [[n | e] s1]; [| reflexivity].
    unfold bind, session_commit.
    destruct (commit_error w (pending s1)); reflexivity.
  - destruct (run_signal w portfolio (_check_mean_reversion_signal w strategy) s)
      as [[n | e] s1]; [| reflexivity].
    unfold bind, session_commit.
    destruct (commit_error w (pending s1)); reflexivity.
  - cbn [run_signal]. unfold bind, ret, session_commit.
    destruct (commit_error w (pending s)); reflexivity.
Qed.

(** A job whose check gives no signal, and whose closing commit goes
    through, succeeds with no trade. *)
Lemma execute_strategy_no_signal (w : World) (strategy_id : string) (s : Session)
    (u : uuid) (strategy : Strategy.t) (portfolio : Portfolio.t) :
  UUID w strategy_id = Some u ->
  find_active_strategy (committed s) u = Some strategy ->
  find_portfolio (committed s) (Strategy.portfolio_id strategy) = Some portfolio ->
  check_signal w strategy = None ->
  commit_error w (pending s) = None ->
  execute_strategy w strategy_id s =
    (Ok (Success strategy_id 0 (utcnow w)), flushed s).
Proof.
  intros Hu Hs Hp Hsig Hc.
  rewrite execute_strategy_eval, Hu, Hs, Hp, Hsig. cbn [run_signal]. unfold ret.
  now rewrite Hc.
Qed.

Lemma find_active_strategy_none (db : DB) (u : uuid) :
  (forall st, In st (strategies db) -> Strategy.id st = u -> Strategy.is_active st = false) ->
  find_active_strategy db u = None.
Proof.
  intros H. unfold find_active_strategy.
  destruct (List.find _ (strategies db)) as [st |] eqn:E; [| reflexivity].
  apply List.find_some in E as [Hin Hst].
  apply andb_true_iff in Hst as [Hid Hact].
  apply N.eqb_eq in Hid. rewrite (H st Hin Hid) in Hact. discriminate.
Qed.

(** A job writes neither portfolio nor position rows. *)
Lemma execute_strategy_keeps_ledger (w : World) (strategy_id : string) (s : Session) :
  exists (r : JobResult) (s' : Session),
    execute_strategy w strategy_id s = (Ok r, s') /\
    portfolios (committed s') = portfolios (committed s) /\
    positions (committed s') = positions (committed s).
Proof.
  rewrite execute_strategy_eval.
  destruct (UUID w strategy_id) as [u |]; [| eexists _, _; now repeat split].
  destruct (find_active_strategy (committed s) u) as [strategy |];
    [| eexists _, _; now repeat split].
  destruct (find_portfolio (committed s) (Strategy.portfolio_id strategy))
    as [portfolio |]; [| eexists _, _; now repeat split].
  destruct (run_signal_eval w portfolio (check_signal w strategy) s)
    as (n & s1 & -> & Hpf & Hpos & _).
  destruct (commit_error w (pending s1));
    eexists _, _; (split; [reflexivity |]); cbn; now split.
Qed.

(** C4 (amended). The task always returns, with status success or error;
    it has no other status.  When the strategy row is missing or has
    [is_active = false] the result is the error "Strategy not found or
    inactive", and when the portfolio row is missing the error "Portfolio
    not found"; in both cases the session is left as it was and neither the
    provider, the indicator library nor the clock plays a part. *)
Theorem execute_strategy_status (w : World) (strategy_id : string) (s : Session) :
  exists (r : JobResult) (s' : Session),
    execute_strategy w strategy_id s = (Ok r, s') /\
    (status r = "success" \/ status r = "error") /\
    (forall u : uuid,
       UUID w strategy_id = Some u ->
       (forall st, In st (strategies (committed s)) ->
                   Strategy.id st = u -> Strategy.is_active st = false) ->
       r = Error "Strategy not found or inactive" /\ s' = s /\
       forall w' : World,
         UUID w' = UUID w ->
         execute_strategy w' strategy_id s =
           (Ok (Error "Strategy not found or inactive"), s)) /\
    (forall (u : uuid) (strategy : Strategy.t),
       UUID w strategy_id = Some u ->
       find_active_strategy (committed s) u = Some strategy ->
       find_portfolio (committed s) (Strategy.portfolio_id strategy) = None ->
       r = Error "Portfolio not found" /\ s' = s /\
       forall w' : World,
         UUID w' = UUID w ->
         execute_strategy w' strategy_id s = (Ok (Error "Portfolio not found"), s)).
Proof.
  assert (Hex : exists r s', execute_strategy w strategy_id s = (Ok r, s') /\
                             (status r = "success" \/ status r = "error")).
  { rewrite execute_strategy_eval.
    destruct (UUID w strategy_id) as [u |]; [| eexists _, _; split; [reflexivity | now right]].
    destruct (find_active_strategy (committed s) u) as [strategy |];
      [| eexists _, _; split; [reflexivity | now right]].
    destruct (find_portfolio (committed s) (Strategy.portfolio_id strategy))
      as [portfolio |]; [| eexists _, _; split; [reflexivity | now right]].
    destruct (run_signal_eval w portfolio (check_signal w strategy) s)
      as (n & s1 & -> & _).
    destruct (commit_error w (pending s1));
      eexists _, _; (split; [reflexivity |]); [now right | now left]. }
  destruct Hex as (r & s' & Hrun & Hstatus).
  exists r, s'. split; [exact Hrun |]. split; [exact Hstatus |]. split.
  - intros u Hu Hina.
    pose proof (find_active_strategy_none _ _ Hina) as Hnone.
    rewrite execute_strategy_eval, Hu, Hnone in Hrun.
    inversion Hrun; subst. repeat split.
    intros w' Hw'. rewrite execute_strategy_eval, Hw', Hu, Hnone. reflexivity.
  - intros u strategy Hu Hs Hp.
    rewrite execute_strategy_eval, Hu, Hs, Hp in Hrun.
    inversion Hrun; subst. repeat split.
    intros w' Hw'. rewrite execute_strategy_eval, Hw', Hu, Hs, Hp. reflexivity.
Qed.

Lemma execute_strategy_status_witness :
  execute_strategy (demo_world []) strategy_uuid_str
                   (fresh_session (demo_db "momentum" false))
  = (Ok (Error "Strategy not found or inactive"),
     fresh_session (demo_db "momentum" false)).
Proof.
  destruct (execute_strategy_status (demo_world []) strategy_uuid_str
              (fresh_session (demo_db "momentum" false)))
    as (r & s' & Hrun & _ & Hinactive & _).
  destruct (Hinactive 1%N eq_refl) as (-> & -> & _).
  - intros st [<- | []] _. reflexivity.
  - exact Hrun.
Defined.

(** C4 as stated fails.  For a strategy whose row has [is_active = false]
    the task returns the error "Strategy not found or inactive": its status
    is "error", which is not "skipped" and is none of success, skipped and
    failed. *)
Lemma inactive_strategy_returns_error :
  let s0 := fresh_session (demo_db "momentum" false) in
  let r := Error "Strategy not found or inactive" in
  Strategy.is_active (demo_strategy "momentum" false) = false /\
  execute_strategy (demo_world []) strategy_uuid_str s0 = (Ok r, s0) /\
  status r = "error" /\
  status r <> "skipped" /\
  ~ In (status r) spec_statuses.
Proof.
  cbv zeta. repeat split.
  - discriminate.
  - cbn. intros [H | [H | [H | []]]]; discriminate.
Qed.

(** ** Short series *)

Lemma short_series_momentum (w : World) (strategy : Strategy.t) (bars : list Bar.t) :
  get_bars w (dict_get (Strategy.parameters strategy) "symbol" (JStr "AAPL")) "1D" 100
    = Ok bars ->
  (length bars < 50)%nat ->
  _check_momentum_signal w strategy = None.
Proof.
  intros Hbars Hlen. unfold _check_momentum_signal.
  destruct (talib w) as [lib |]; [| reflexivity].
  unfold momentum_body. rewrite Hbars. cbn [rbind].
  destruct (Nat.ltb_spec (length bars) 50) as [_ | Hge]; [reflexivity | lia].
Qed.

Lemma short_series_mean_reversion (w : World) (strategy : Strategy.t)
    (bars : list Bar.t) :
  get_bars w (dict_get (Strategy.parameters strategy) "symbol" (JStr "AAPL")) "1D" 50
    = Ok bars ->
  (length bars < 20)%nat ->
  _check_mean_reversion_signal w strategy = None.
Proof.
  intros Hbars Hlen. unfold _check_mean_reversion_signal.
  destruct (talib w) as [lib |]; [| reflexivity].
  unfold mean_reversion_body. rewrite Hbars. cbn [rbind].
  destruct (Nat.ltb_spec (length bars) 20) as [_ | Hge]; [reflexivity | lia].
Qed.

Lemma check_signal_short (w : World) (strategy : Strategy.t) :
  series_too_short w strategy -> check_signal w strategy = None.
Proof.
  unfold check_signal.
  intros [(Ht & bars & Hbars & Hlen) | (Ht & bars & Hbars & Hlen)]; rewrite Ht; cbn.
  - eapply short_series_momentum; eassumption.
  - eapply short_series_mean_reversion; eassumption.
Qed.

(** C7 (amended). A provider answer shorter than the minimum of the check
    (50 bars for momentum, 20 for mean reversion) yields no trade intent and
    no exception; the job then completes with status success and
    [trades_executed = 0], its closing commit going through. *)
Theorem short_series_no_intent (w : World) (strategy : Strategy.t) :
  series_too_short w strategy ->
  check_signal w strategy = None /\
  forall (strategy_id : string) (s : Session) (u : uuid) (portfolio : Portfolio.t),
    UUID w strategy_id = Some u ->
    find_active_strategy (committed s) u = Some strategy ->
    find_portfolio (committed s) (Strategy.portfolio_id strategy) = Some portfolio ->
    commit_error w (pending s) = None ->
    execute_strategy w strategy_id s =
      (Ok (Success strategy_id 0 (utcnow w)), flushed s).
Proof.
  intros Hshort. pose proof (check_signal_short w strategy Hshort) as Hnone.
  split; [exact Hnone |].
  intros strategy_id s u portfolio Hu Hs Hp Hc.
  now apply (execute_strategy_no_signal w strategy_id s u strategy portfolio).
Qed.

Lemma short_series_no_intent_witness :
  execute_strategy (demo_world ten_bars) strategy_uuid_str
                   (fresh_session (demo_db "momentum" true))
  = (Ok (Success strategy_uuid_str 0 1700000000%N),
     fresh_session (demo_db "momentum" true)).
Proof.
  refine (proj2 (short_series_no_intent (demo_world ten_bars)
                   (demo_strategy "momentum" true) _)
                strategy_uuid_str (fresh_session (demo_db "momentum" true))
                1%N demo_portfolio eq_refl eq_refl eq_refl eq_refl).
  left. split; [reflexivity |]. exists ten_bars. split; [reflexivity |].
  vm_compute. lia.
Defined.

(** C7 as stated fails.  With a provider answer of ten bars the momentum
    check returns no intent, and the job completes with status "success"
    and no trade, not with status "skipped". *)
Lemma short_series_job_succeeds :
  let w := demo_world ten_bars in
  let s0 := fresh_session (demo_db "momentum" true) in
  let r := Success strategy_uuid_str 0 1700000000%N in
  length ten_bars = 10%nat /\
  _check_momentum_signal w (demo_strategy "momentum" true) = None /\
  execute_strategy w strategy_uuid_str s0 = (Ok r, s0) /\
  status r = "success" /\
  status r <> "skipped".
Proof.
  cbv zeta. repeat split. discriminate.
Qed.

(** ** Exceptions inside the signal checks *)

Lemma check_signal_raises (w : World) (strategy : Strategy.t) :
  check_raises w strategy -> check_signal w strategy = None.
Proof.
  unfold check_signal, _check_momentum_signal, _check_mean_reversion_signal.
  intros [(Ht & [Hlib | (lib & e & Hlib & Hbody)])
         | (Ht & [Hlib | (lib & e & Hlib & Hbody)])];
    rewrite Ht; cbn; rewrite Hlib; try reflexivity; now rewrite Hbody.
Qed.

(** C10. Whatever exception the selected signal check meets (the indicator
    library missing, the provider call raising, a bar without a usable
    close), the check returns no intent; the job then completes with status
    success and [trades_executed = 0], its closing commit going through. *)
Theorem signal_exceptions_swallowed (w : World) (strategy : Strategy.t) :
  check_raises w strategy ->
  check_signal w strategy = None /\
  forall (strategy_id : string) (s : Session) (u : uuid) (portfolio : Portfolio.t),
    UUID w strategy_id = Some u ->
    find_active_strategy (committed s) u = Some strategy ->
    find_portfolio (committed s) (Strategy.portfolio_id strategy) = Some portfolio ->
    commit_error w (pending s) = None ->
    exists r : JobResult,
      execute_strategy w strategy_id s = (Ok r, flushed s) /\
      status r = "success" /\
      trades_executed_of r = Some 0%nat.
Proof.
  intros Hraise. pose proof (check_signal_raises w strategy Hraise) as Hnone.
  split; [exact Hnone |].
  intros strategy_id s u portfolio Hu Hs Hp Hc.
  eexists. split.
  - now apply (execute_strategy_no_signal w strategy_id s u strategy portfolio).
  - now split.
Qed.

Lemma signal_exceptions_swallowed_witness :
  exists r : JobResult,
    execute_strategy failing_provider_world strategy_uuid_str
                     (fresh_session (demo_db "mean_reversion" true))
    = (Ok r, fresh_session (demo_db "mean_reversion" true)) /\
    status r = "success" /\
    trades_executed_of r = Some 0%nat.
Proof.
  refine (proj2 (signal_exceptions_swallowed failing_provider_world
                   (demo_strategy "mean_reversion" true) _)
                strategy_uuid_str (fresh_session (demo_db "mean_reversion" true))
                1%N demo_portfolio eq_refl eq_refl eq_refl eq_refl).
  right. split; [reflexivity |]. right.
  exists reference_talib, "ProviderError: connection timed out".
  split; reflexivity.
Defined.

(** ** Determinism *)

(** C8. The intent a signal check returns is a function of the strategy
    type, the parameter set, the indicator library and the price series the
    provider answers with: two evaluations that agree on these return the
    same intent or both none, whatever else differs between the two runs
    (clock, database, the other fields of the strategy row). *)
Theorem signal_evaluation_deterministic (w1 w2 : World) (s1 s2 : Strategy.t) :
  Strategy.strategy_type s1 = Strategy.strategy_type s2 ->
  Strategy.parameters s1 = Strategy.parameters s2 ->
  talib w1 = talib w2 ->
  (forall limit : nat,
     get_bars w1 (dict_get (Strategy.parameters s1) "symbol" (JStr "AAPL")) "1D" limit =
     get_bars w2 (dict_get (Strategy.parameters s1) "symbol" (JStr "AAPL")) "1D" limit) ->
  check_signal w1 s1 = check_signal w2 s2.
Proof.
  intros Htype Hparams Hlib Hbars.
  unfold check_signal, _check_momentum_signal, _check_mean_reversion_signal.
  rewrite <- Htype, <- Hlib.
  destruct (String.eqb (Strategy.strategy_type s1) "momentum").
  - destruct (talib w1) as [lib |]; [| reflexivity].
    unfold momentum_body. rewrite <- Hparams, <- Hbars. reflexivity.
  - destruct (String.eqb (Strategy.strategy_type s1) "mean_reversion");
      [| reflexivity].
    destruct (talib w1) as [lib |]; [| reflexivity].
    unfold mean_reversion_body. rewrite <- Hparams, <- Hbars. reflexivity.
Qed.

Lemma signal_evaluation_deterministic_witness :
  check_signal (demo_world (map bar_at flat_then_drop)) (demo_strategy "mean_reversion" true)
  = check_signal (later_world (map bar_at flat_then_drop)) (twin_strategy "mean_reversion").
Proof.
  apply signal_evaluation_deterministic.
  - reflexivity.
  - reflexivity.
  - reflexivity.
  - intros limit. reflexivity.
Defined.

(** ** The ledger *)



Lemma flushed_fresh (db : DB) : flushed (fresh_session db) = fresh_session db.
Proof.
  unfold flushed, fresh_session, insert_trades. cbn. rewrite app_nil_r.
  now destruct db.
Qed.




(** ** Positions *)




(** ** Dispatch *)

Lemma find_update_first {A : Type} (p : A -> bool) (f : A -> A) (l : list A) :
  (forall x, p x = true -> p (f x) = true) ->
  List.find p (Dispatch.update_first p f l) = option_map f (List.find p l).
Proof.
  intros Hp. induction l as [| x l IH]; [reflexivity |].
  cbn. destruct (p x) eqn:E; cbn.
  - now rewrite (Hp x E).
  - now rewrite E.
Qed.

Lemma activate_keeps_strategy (strategy_id user : uuid) (db : DB) (st : Strategy.t) :
  List.find (Dispatch.owned_by strategy_id user) (strategies db) = Some st ->
  List.find (Dispatch.owned_by strategy_id user)
            (strategies (Dispatch.set_active strategy_id user db))
  = Some (Dispatch.activated st).
Proof.
  intros H. cbn [Dispatch.set_active strategies].
  rewrite find_update_first.
  - now rewrite H.
  - intros x Hx. exact Hx.
Qed.

(** C9 (amended). There is no per-strategy lease.  Every activation of an
    existing strategy sends one job to the queue, also when the strategy is
    already active, and a worker with a free slot starts the job at the
    head of the queue whatever is in flight: after two activations of one
    strategy and two starts, with two free workers, two jobs of that
    strategy are in flight together and nothing has gone back to the
    queue. *)
Theorem no_lease_between_jobs (str : uuid -> string) (strategy_id user : uuid)
    (sys : Dispatch.System) (st : Strategy.t) :
  List.find (Dispatch.owned_by strategy_id user) (strategies (Dispatch.store sys))
    = Some st ->
  Dispatch.queue sys = [] ->
  (length (Dispatch.running sys) + 2 <= Dispatch.workers sys)%nat ->
  exists sys' : Dispatch.System,
    Dispatch.run str [Dispatch.Activate strategy_id user;
                      Dispatch.Activate strategy_id user;
                      Dispatch.Start; Dispatch.Start] sys = Some sys' /\
    Dispatch.running sys' =
      (Dispatch.running sys ++ [str strategy_id; str strategy_id])%list /\
    Dispatch.queue sys' = [] /\
    (2 <= Dispatch.in_flight (str strategy_id) sys')%nat.
Proof.
  intros Hfind Hq Hfree.
  pose proof (activate_keeps_strategy _ _ _ _ Hfind) as Hfind'.
  cbn [Dispatch.run Dispatch.step]. unfold Dispatch.activate_strategy at 1.
  rewrite Hfind. cbn [Dispatch.run Dispatch.step].
  unfold Dispatch.activate_strategy at 1. cbn [Dispatch.store].
  rewrite Hfind'. cbn [Dispatch.run Dispatch.step Dispatch.queue].
  rewrite Hq. cbn [app].
  unfold Dispatch.worker_start at 1. cbn [Dispatch.queue Dispatch.running Dispatch.workers].
  destruct (Nat.ltb_spec (length (Dispatch.running sys)) (Dispatch.workers sys))
    as [_ | Hge]; [| lia].
  cbn [Dispatch.run Dispatch.step].
  unfold Dispatch.worker_start at 1. cbn [Dispatch.queue Dispatch.running Dispatch.workers].
  rewrite length_app. cbn [length].
  destruct (Nat.ltb_spec (length (Dispatch.running sys) + 1) (Dispatch.workers sys))
    as [_ | Hge]; [| lia].
  eexists. split; [reflexivity |]. cbn [Dispatch.running Dispatch.queue].
  assert (E : ((Dispatch.running sys ++ [str strategy_id]) ++ [str strategy_id])%list
              = (Dispatch.running sys ++ [str strategy_id; str strategy_id])%list).
  { rewrite <- app_assoc. reflexivity. }
  split; [exact E |]. split; [reflexivity |].
  unfold Dispatch.in_flight. cbn [Dispatch.running].
  rewrite E, List.filter_app, length_app. cbn [List.filter].
  rewrite String.eqb_refl. cbn [length]. lia.
Qed.

Lemma no_lease_between_jobs_witness :
  exists sys' : Dispatch.System,
    Dispatch.run demo_str [Dispatch.Activate 1%N 3%N; Dispatch.Activate 1%N 3%N;
                           Dispatch.Start; Dispatch.Start]
                 (idle_pool (demo_db "momentum" false)) = Some sys' /\
    Dispatch.running sys' = [strategy_uuid_str; strategy_uuid_str] /\
    Dispatch.queue sys' = [] /\
    (2 <= Dispatch.in_flight strategy_uuid_str sys')%nat.
Proof.
  refine (no_lease_between_jobs demo_str 1%N 3%N (idle_pool (demo_db "momentum" false))
            (demo_strategy "momentum" false) eq_refl eq_refl _).
  vm_compute. lia.
Defined.

(** C9 as stated fails.  From two idle workers and an empty queue, two
    activations of the same strategy followed by two worker starts leave
    two tasks of that strategy in flight together; the second was not
    requeued. *)
Lemma two_jobs_of_one_strategy_in_flight :
  let db := demo_db "momentum" false in
  let sys := {| Dispatch.store := Dispatch.set_active 1%N 3%N (Dispatch.set_active 1%N 3%N db);
                Dispatch.queue := [];
                Dispatch.running := [strategy_uuid_str; strategy_uuid_str];
                Dispatch.workers := 2 |} in
  Dispatch.mutual_exclusion (idle_pool db) /\
  Dispatch.run demo_str [Dispatch.Activate 1%N 3%N; Dispatch.Activate 1%N 3%N;
                         Dispatch.Start; Dispatch.Start] (idle_pool db) = Some sys /\
  Dispatch.in_flight strategy_uuid_str sys = 2%nat /\
  ~ Dispatch.mutual_exclusion sys.
Proof.
  cbv zeta. split; [| split; [| split]].
  - intros job. cbn. lia.
  - reflexivity.
  - reflexivity.
  - intros H. specialize (H strategy_uuid_str). vm_compute in H. lia.
Qed.

(** * Properties of the rest of the engine *)

(** ** What a signal check can emit *)

Lemma latest_close_in (closes : list Q) :
  (0 < length closes)%nat -> In (latest_close closes) closes.
Proof.
  intros H. unfold latest_close.
  induction closes as [| c [| d rest] IH]; cbn in *; [lia | now left |].
  right. apply IH. lia.
Qed.

Lemma momentum_body_some (w : World) (lib : Talib) (strategy : Strategy.t)
    (sig : Signal.t) :
  momentum_body w lib strategy = Ok (Some sig) ->
  exists (bars : list Bar.t) (closes : list Q) (side : string),
    get_bars w (dict_get (Strategy.parameters strategy) "symbol" (JStr "AAPL")) "1D" 100
      = Ok bars /\
    (50 <= length bars)%nat /\
    closes_of bars = Ok closes /\
    (side = "BUY" \/ side = "SELL") /\
    sig = intent_of strategy side (latest_close closes).
Proof.
  unfold momentum_body.
  destruct (get_bars w _ "1D" 100) as [bars | e]; cbn [rbind]; [| discriminate].
  destruct (Nat.ltb_spec (length bars) 50) as [Hlt | Hge]; [discriminate |].
  destruct (closes_of bars) as [closes | e] eqn:Hcloses; cbn [rbind]; [| discriminate].
  destruct (MACD lib closes 12 26 9) as [[macd signal] hist].
  unfold index_last, latest_close.
  destruct (last (RSI lib closes 14)) as [r |]; cbn [rbind]; [| discriminate].
  destruct (last macd) as [m |]; cbn [rbind]; [| discriminate].
  destruct (last signal) as [sg |]; cbn [rbind]; [| discriminate].
  destruct (last closes) as [c |] eqn:Hc; cbn [rbind]; [| discriminate].
  intros H. exists bars, closes. rewrite Hc.
  destruct (flt r (Some 30%Q) && flt sg m).
  - exists "BUY". inversion H. repeat split; auto.
  - destruct (flt (Some 70%Q) r && flt m sg); [| discriminate].
    exists "SELL". inversion H. repeat split; auto.
Qed.

Lemma mean_reversion_body_some (w : World) (lib : Talib) (strategy : Strategy.t)
    (sig : Signal.t) :
  mean_reversion_body w lib strategy = Ok (Some sig) ->
  exists (bars : list Bar.t) (closes : list Q) (side : string),
    get_bars w (dict_get (Strategy.parameters strategy) "symbol" (JStr "AAPL")) "1D" 50
      = Ok bars /\
    (20 <= length bars)%nat /\
    closes_of bars = Ok closes /\
    (side = "BUY" \/ side = "SELL") /\
    sig = intent_of strategy side (latest_close closes).
Proof.
  unfold mean_reversion_body.
  destruct (get_bars w _ "1D" 50) as [bars | e]; cbn [rbind]; [| discriminate].
  destruct (Nat.ltb_spec (length bars) 20) as [Hlt | Hge]; [discriminate |].
  destruct (closes_of bars) as [closes | e] eqn:Hcloses; cbn [rbind]; [| discriminate].
  destruct (BBANDS lib closes 20 2 2) as [[upper middle] lower].
  unfold index_last, latest_close.
  destruct (last closes) as [c |] eqn:Hc; cbn [rbind]; [| discriminate].
  destruct (last upper) as [u |]; cbn [rbind]; [| discriminate].
  destruct (last lower) as [l |]; cbn [rbind]; [| discriminate].
  destruct (last middle) as [m |]; cbn [rbind]; [| discriminate].
  intros H. exists bars, closes. rewrite Hc.
  destruct (flt (Some c) l).
  - exists "BUY". inversion H. repeat split; auto.
  - destruct (flt u (Some c)); [| discriminate].
    exists "SELL". inversion H. repeat split; auto.
Qed.

(** X1. An intent is never made up: whenever the check selected for a
    strategy returns one, the strategy type is momentum or mean reversion,
    the indicator library was importable, the provider answered with at
    least the minimum number of bars of that check, all with a usable
    close; the side is BUY or SELL, symbol and quantity are the strategy's
    parameters (AAPL and 10 when absent), and the price is the last close
    of that answer. *)
Theorem emitted_intent_is_grounded (w : World) (strategy : Strategy.t) (sig : Signal.t) :
  check_signal w strategy = Some sig ->
  exists (lib : Talib) (limit least : nat) (bars : list Bar.t) (closes : list Q)
         (side : string),
    talib w = Some lib /\
    ((Strategy.strategy_type strategy = "momentum" /\ limit = 100%nat /\ least = 50%nat) \/
     (Strategy.strategy_type strategy = "mean_reversion" /\ limit = 50%nat /\ least = 20%nat)) /\
    get_bars w (dict_get (Strategy.parameters strategy) "symbol" (JStr "AAPL")) "1D" limit
      = Ok bars /\
    (least <= length bars)%nat /\
    closes_of bars = Ok closes /\
    (side = "BUY" \/ side = "SELL") /\
    sig = intent_of strategy side (latest_close closes) /\
    In (Signal.price sig) closes.
Proof.
  unfold check_signal, _check_momentum_signal, _check_mean_reversion_signal.
  destruct (String.eqb_spec (Strategy.strategy_type strategy) "momentum") as [Ht | _].
  - destruct (talib w) as [lib |]; [| discriminate].
    destruct (momentum_body w lib strategy) as [[s |] | e] eqn:Hbody; cbn [or_none];
      try discriminate.
    intros H. inversion H; subst s.
    destruct (momentum_body_some _ _ _ _ Hbody)
      as (bars & closes & side & Hbars & Hlen & Hcloses & Hside & ->).
    exists lib, 100%nat, 50%nat, bars, closes, side.
    repeat split; auto.
    cbn [intent_of Signal.price]. apply latest_close_in.
    rewrite (closes_of_length _ _ Hcloses). lia.
  - destruct (String.eqb_spec (Strategy.strategy_type strategy) "mean_reversion")
      as [Ht | _]; [| discriminate].
    destruct (talib w) as [lib |]; [| discriminate].
    destruct (mean_reversion_body w lib strategy) as [[s |] | e] eqn:Hbody; cbn [or_none];
      try discriminate.
    intros H. inversion H; subst s.
    destruct (mean_reversion_body_some _ _ _ _ Hbody)
      as (bars & closes & side & Hbars & Hlen & Hcloses & Hside & ->).
    exists lib, 50%nat, 20%nat, bars, closes, side.
    repeat split; auto.
    cbn [intent_of Signal.price]. apply latest_close_in.
    rewrite (closes_of_length _ _ Hcloses). lia.
Qed.

Lemma emitted_intent_is_grounded_witness :
  exists (lib : Talib) (limit least : nat) (bars : list Bar.t) (closes : list Q)
         (side : string),
    talib (demo_world (map bar_at flat_then_drop)) = Some lib /\
    (("mean_reversion" = "momentum" /\ limit = 100%nat /\ least = 50%nat) \/
     ("mean_reversion" = "mean_reversion" /\ limit = 50%nat /\ least = 20%nat)) /\
    Ok (map bar_at flat_then_drop) = Ok bars /\
    (least <= length bars)%nat /\
    closes_of bars = Ok closes /\
    (side = "BUY" \/ side = "SELL") /\
    buy_10_at_80 = intent_of (demo_strategy "mean_reversion" true) side (latest_close closes) /\
    In 80%Q closes.
Proof.
  apply (emitted_intent_is_grounded (demo_world (map bar_at flat_then_drop))
           (demo_strategy "mean_reversion" true) buy_10_at_80).
  vm_compute. reflexivity.
Defined.

(** ** What a job writes *)

(** X2. No intent is executed.  The constructor of the row refuses the
    keyword [total_value], which [models.Trade] does not have, so
    [_execute_trade] answers every intent with [None] after a rollback
    that leaves the committed database as it was; a job on the session the
    task opens therefore never changes the database, and when it reports
    success it counts no trade. *)
Theorem no_intent_is_executed :
  declarative_constructor "Trade" Trade_attributes Trade_keywords
    = Raise "TypeError: 'total_value' is an invalid keyword argument for Trade" /\
  (forall (w : World) (portfolio : Portfolio.t) (signal : Signal.t) (s : Session),
     _execute_trade w portfolio signal s = (Ok None, rolled_back s)) /\
  (forall (w : World) (strategy_id : string) (db : DB),
     exists r : JobResult,
       execute_strategy w strategy_id (fresh_session db) = (Ok r, fresh_session db) /\
       (r = Success strategy_id 0 (utcnow w) \/ exists e : string, r = Error e)).
Proof.
  split; [reflexivity |]. split; [apply execute_trade_eval |].
  intros w strategy_id db. rewrite execute_strategy_eval.
  destruct (UUID w strategy_id) as [u |]; [| eexists; split; [reflexivity | eauto]].
  cbn [fresh_session committed].
  destruct (find_active_strategy db u) as [strategy |];
    [| eexists; split; [reflexivity | eauto]].
  destruct (find_portfolio db (Strategy.portfolio_id strategy)) as [portfolio |];
    [| eexists; split; [reflexivity | eauto]].
  rewrite run_signal_nothing.
  assert (E : match check_signal w strategy with
              | Some _ => rolled_back (fresh_session db)
              | None => fresh_session db
              end = fresh_session db) by (now destruct (check_signal w strategy)).
  rewrite E. change (pending (fresh_session db)) with (@nil Trade.t).
  destruct (commit_error w []) as [e |].
  - eexists. split; [reflexivity | eauto].
  - rewrite flushed_fresh. eexists. split; [reflexivity | now left].
Qed.

(** X3. A refused closing commit is reported, and nothing is written.
    When the strategy is active and its portfolio exists but the closing
    [session.commit()] of the job raises, the job answers with status
    error and the message of that exception, whatever the check found, and
    the database is what it was. *)
Theorem refused_closing_commit_is_reported (w : World) (strategy_id : string) (db : DB)
    (u : uuid) (strategy : Strategy.t) (portfolio : Portfolio.t) (e : string) :
  UUID w strategy_id = Some u ->
  find_active_strategy db u = Some strategy ->
  find_portfolio db (Strategy.portfolio_id strategy) = Some portfolio ->
  commit_error w [] = Some e ->
  execute_strategy w strategy_id (fresh_session db) = (Ok (Error e), fresh_session db).
Proof.
  intros Hu Hs Hp Hc.
  rewrite execute_strategy_eval. cbn [fresh_session committed].
  rewrite Hu, Hs, Hp, run_signal_nothing.
  assert (E : match check_signal w strategy with
              | Some _ => rolled_back (fresh_session db)
              | None => fresh_session db
              end = fresh_session db) by (now destruct (check_signal w strategy)).
  rewrite E. change (pending (fresh_session db)) with (@nil Trade.t).
  now rewrite Hc.
Qed.

Lemma refused_closing_commit_is_reported_witness :
  execute_strategy (refusing_world (map bar_at flat_then_drop)) strategy_uuid_str
                   (fresh_session (demo_db "mean_reversion" true))
  = (Ok (Error "OperationalError: server closed the connection"),
     fresh_session (demo_db "mean_reversion" true)).
Proof.
  apply (refused_closing_commit_is_reported
           (refusing_world (map bar_at flat_then_drop)) strategy_uuid_str
           (demo_db "mean_reversion" true) 1%N (demo_strategy "mean_reversion" true)
           demo_portfolio);
    reflexivity.
Defined.

(** X4. A strategy that cannot produce an executable intent is run as a
    no-op: when its type is neither momentum nor mean reversion, or its
    [quantity] parameter is not a number, the job writes nothing and, its
    closing commit going through, reports success with no trade, whatever
    the provider and the indicators say. *)
Theorem unexecutable_strategy_job_is_noop (w : World) (strategy_id : string) (db : DB)
    (u : uuid) (strategy : Strategy.t) (portfolio : Portfolio.t) :
  UUID w strategy_id = Some u ->
  find_active_strategy db u = Some strategy ->
  find_portfolio db (Strategy.portfolio_id strategy) = Some portfolio ->
  (Strategy.strategy_type strategy <> "momentum" /\
   Strategy.strategy_type strategy <> "mean_reversion") \/
  as_number (dict_get (Strategy.parameters strategy) "quantity" (JNum 10)) = None ->
  commit_error w [] = None ->
  execute_strategy w strategy_id (fresh_session db) =
    (Ok (Success strategy_id 0 (utcnow w)), fresh_session db).
Proof.
  intros Hu Hs Hp Hcannot Hc.
  rewrite execute_strategy_eval. cbn [fresh_session committed].
  rewrite Hu, Hs, Hp, run_signal_nothing.
  assert (E : match check_signal w strategy with
              | Some _ => rolled_back (fresh_session db)
              | None => fresh_session db
              end = fresh_session db) by (now destruct (check_signal w strategy)).
  rewrite E. change (pending (fresh_session db)) with (@nil Trade.t).
  now rewrite Hc, flushed_fresh.
Qed.

Lemma unexecutable_strategy_job_is_noop_witness :
  execute_strategy (demo_world (map bar_at flat_then_drop)) strategy_uuid_str
                   (fresh_session misconfigured_db)
  = (Ok (Success strategy_uuid_str 0 1700000000%N), fresh_session misconfigured_db).
Proof.
  apply (unexecutable_strategy_job_is_noop
           (demo_world (map bar_at flat_then_drop)) strategy_uuid_str misconfigured_db
           1%N misconfigured_strategy demo_portfolio);
    try reflexivity.
  right. reflexivity.
Defined.

(** ** Stopping, deactivating and creating strategies *)

Lemma update_first_ids {A : Type} (p : A -> bool) (f : A -> A) (key : A -> uuid)
    (l : list A) :
  (forall x, key (f x) = key x) ->
  map key (Dispatch.update_first p f l) = map key l.
Proof.
  intros Hf. induction l as [| x l IH]; [reflexivity |].
  cbn. destruct (p x); cbn; [now rewrite Hf | now rewrite IH].
Qed.

Lemma update_first_rows {A : Type} (p : A -> bool) (f : A -> A) (l : list A)
    (i : nat) (y : A) :
  nth_error (Dispatch.update_first p f l) i = Some y ->
  exists x, nth_error l i = Some x /\ (y = x \/ (y = f x /\ p x = true)).
Proof.
  revert i. induction l as [| x l IH]; intros i H; cbn in H.
  - destruct i; discriminate.
  - destruct (p x) eqn:E.
    + destruct i as [| i]; cbn in *.
      * inversion H; subst. exists x. split; [reflexivity | right; now split].
      * exists y. split; [exact H | now left].
    + destruct i as [| i]; cbn in *.
      * inversion H; subst. exists y. split; [reflexivity | now left].
      * apply IH. exact H.
Qed.

(** After the first row that satisfies [p] has been deactivated, no row
    with the key [u] is active, the key being unique and [p] selecting
    rows of that key only. *)
Lemma update_first_inactive (p : Strategy.t -> bool) (u : uuid) (l : list Strategy.t)
    (found : Strategy.t) :
  List.NoDup (map Strategy.id l) ->
  (forall x, p x = true -> Strategy.id x = u) ->
  List.find p l = Some found ->
  forall st, In st (Dispatch.update_first p deactivated l) ->
             Strategy.id st = u -> Strategy.is_active st = false.
Proof.
  intros Hnd Hp. induction l as [| x l IH]; intros Hfind st Hin Hid; [discriminate |].
  cbn in Hfind, Hin. cbn [map] in Hnd. apply List.NoDup_cons_iff in Hnd as [Hnotin Hnd'].
  destruct (p x) eqn:E.
  - destruct Hin as [<- | Hin]; [reflexivity |].
    exfalso. apply Hnotin. rewrite (Hp x E), <- Hid. now apply in_map.
  - destruct Hin as [<- | Hin].
    + exfalso. apply List.find_some in Hfind as [Hin' Hpf].
      apply Hnotin. rewrite Hid, <- (Hp found Hpf). now apply in_map.
    + now apply IH.
Qed.

Lemma stop_strategy_eval (w : World) (strategy_id : string) (db : DB) :
  stop_strategy w strategy_id db =
    match UUID w strategy_id with
    | None => ({| reply_status := "error";
                  reply_message := "badly formed hexadecimal UUID string" |}, db)
    | Some u =>
        match List.find (has_id u) (strategies db) with
        | None => ({| reply_status := "error"; reply_message := "Strategy not found" |}, db)
        | Some _ =>
            match commit_error w [] with
            | Some e => ({| reply_status := "error"; reply_message := e |}, db)
            | None =>
                ({| reply_status := "success"; reply_message := "Strategy stopped" |},
                 set_strategies
                   (Dispatch.update_first (has_id u) deactivated (strategies db)) db)
            end
        end
    end.
Proof.
  unfold stop_strategy.
  destruct (UUID w strategy_id) as [u |]; cbn [rbind]; [| reflexivity].
  destruct (List.find (has_id u) (strategies db)); [| reflexivity].
  destruct (commit_error w []); reflexivity.
Qed.

(** X5. Stopping works: once [stop_strategy] has answered success for an
    id, a job for that id, run in any world that reads the id the same way,
    answers "Strategy not found or inactive" and writes nothing.  The
    strategy ids are unique, as the primary key makes them. *)
Theorem stopped_strategy_is_not_executed (w w' : World) (strategy_id : string)
    (db db' : DB) (r : Reply) :
  unique_strategy_ids db ->
  stop_strategy w strategy_id db = (r, db') ->
  reply_status r = "success" ->
  UUID w' strategy_id = UUID w strategy_id ->
  execute_strategy w' strategy_id (fresh_session db') =
    (Ok (Error "Strategy not found or inactive"), fresh_session db').
Proof.
  intros Hnd Hstop Hok Hsame.
  rewrite stop_strategy_eval in Hstop.
  destruct (UUID w strategy_id) as [u |] eqn:Hu;
    [| inversion Hstop; subst; discriminate].
  destruct (List.find (has_id u) (strategies db)) as [found |] eqn:Hfind;
    [| inversion Hstop; subst; discriminate].
  destruct (commit_error w []); inversion Hstop; subst; [discriminate |].
  rewrite execute_strategy_eval, Hsame. cbn [fresh_session committed].
  rewrite find_active_strategy_none; [reflexivity |].
  cbn [set_strategies strategies]. intros st Hin Hid.
  eapply update_first_inactive; eauto.
  intros x Hx. now apply N.eqb_eq in Hx.
Qed.

Lemma stopped_strategy_is_not_executed_witness :
  let db' := set_strategies [deactivated (demo_strategy "momentum" true)]
                            (demo_db "momentum" true) in
  execute_strategy (demo_world ten_bars) strategy_uuid_str (fresh_session db')
  = (Ok (Error "Strategy not found or inactive"), fresh_session db').
Proof.
  apply (stopped_strategy_is_not_executed
           (demo_world []) (demo_world ten_bars) strategy_uuid_str
           (demo_db "momentum" true) _
           {| reply_status := "success"; reply_message := "Strategy stopped" |}).
  - repeat constructor. intros [].
  - reflexivity.
  - reflexivity.
  - reflexivity.
Defined.

(** X6. [stop_strategy] changes one flag at most.  Portfolios, positions
    and trades are untouched, the strategy rows keep their ids and their
    order, and a row either stays as it was or is the row of the requested
    id with [is_active] cleared; unless the answer is success the database
    is exactly what it was. *)
Theorem stop_strategy_changes_one_flag (w : World) (strategy_id : string) (db : DB) :
  let r := fst (stop_strategy w strategy_id db) in
  let db' := snd (stop_strategy w strategy_id db) in
  portfolios db' = portfolios db /\
  positions db' = positions db /\
  trades db' = trades db /\
  map Strategy.id (strategies db') = map Strategy.id (strategies db) /\
  (reply_status r <> "success" -> db' = db) /\
  forall (i : nat) (st' : Strategy.t),
    nth_error (strategies db') i = Some st' ->
    exists st, nth_error (strategies db) i = Some st /\
               (st' = st \/
                (st' = deactivated st /\ UUID w strategy_id = Some (Strategy.id st))).
Proof.
  cbv zeta. rewrite stop_strategy_eval.
  assert (Hsame : forall (i : nat) (st' : Strategy.t),
            nth_error (strategies db) i = Some st' ->
            exists st, nth_error (strategies db) i = Some st /\
                       (st' = st \/
                        (st' = deactivated st /\
                         UUID w strategy_id = Some (Strategy.id st)))).
  { intros i st' H. exists st'. split; [exact H | now left]. }
  destruct (UUID w strategy_id) as [u |] eqn:Hu; [| now repeat split].
  destruct (List.find (has_id u) (strategies db)); [| now repeat split].
  destruct (commit_error w []); [now repeat split |].
  cbn [fst snd set_strategies strategies portfolios positions trades reply_status].
  repeat split.
  - now apply update_first_ids.
  - intros H. now contradiction H.
  - intros i st' H.
    destruct (update_first_rows _ _ _ _ _ H) as (st & Hnth & [-> | [-> Hp]]).
    + exists st. split; [exact Hnth | now left].
    + exists st. split; [exact Hnth |]. right. split; [reflexivity |].
      apply N.eqb_eq in Hp. now rewrite Hp.
Qed.





Lemma owned_by_id (strategy_id user : uuid) (x : Strategy.t) :
  Dispatch.owned_by strategy_id user x = true -> Strategy.id x = strategy_id.
Proof.
  unfold Dispatch.owned_by. intros H. apply andb_true_iff in H as [H _].
  now apply N.eqb_eq.
Qed.

(** X8. Deactivation does not withdraw a queued job, yet the job does no
    harm.  After the owner activates and then deactivates a strategy, the
    job the activation queued is still in the queue; a worker starts it,
    and it returns having found the strategy inactive: the database is the
    one deactivation left, with the trades it had at the outset.  Strategy
    ids are unique and the id survives the trip through its string form. *)
Theorem deactivation_leaves_the_queued_job (str : uuid -> string) (w : World)
    (strategy_id user : uuid) (sys : Dispatch.System) (st : Strategy.t) :
  unique_strategy_ids (Dispatch.store sys) ->
  List.find (Dispatch.owned_by strategy_id user) (strategies (Dispatch.store sys))
    = Some st ->
  Dispatch.queue sys = [] ->
  Dispatch.running sys = [] ->
  (1 <= Dispatch.workers sys)%nat ->
  UUID w (str strategy_id) = Some strategy_id ->
  exists sys1 sys2 sys3 sys4 : Dispatch.System,
    Dispatch.activate_strategy str strategy_id user sys = Some sys1 /\
    StrategyRoutes.deactivate strategy_id user sys1 = Some sys2 /\
    Dispatch.queue sys2 = [str strategy_id] /\
    Dispatch.worker_start sys2 = Some sys3 /\
    Dispatch.running sys3 = [str strategy_id] /\
    Dispatch.worker_finish w 0 sys3 = Some sys4 /\
    Dispatch.store sys4 = Dispatch.store sys2 /\
    trades (Dispatch.store sys4) = trades (Dispatch.store sys) /\
    find_active_strategy (Dispatch.store sys4) strategy_id = None /\
    Dispatch.queue sys4 = [] /\
    Dispatch.running sys4 = [].
Proof.
  intros Hnd Hfind Hq Hr Hw Hu.
  pose proof (activate_keeps_strategy _ _ _ _ Hfind) as Hfind1.
  unfold Dispatch.activate_strategy. rewrite Hfind, Hq, Hr.
  eexists. eexists. eexists. eexists. split; [reflexivity |].
  unfold StrategyRoutes.deactivate, StrategyRoutes.deactivate_strategy.
  cbn [Dispatch.store Dispatch.queue Dispatch.running Dispatch.workers].
  rewrite Hfind1. split; [reflexivity |].
  cbn [Dispatch.queue app]. split; [reflexivity |].
  unfold Dispatch.worker_start.
  cbn [Dispatch.store Dispatch.queue Dispatch.running Dispatch.workers length].
  destruct (Nat.ltb_spec 0 (Dispatch.workers sys)) as [_ | Hge]; [| lia].
  split; [reflexivity |]. cbn [Dispatch.running app]. split; [reflexivity |].
  unfold Dispatch.worker_finish.
  cbn [Dispatch.store Dispatch.queue Dispatch.running Dispatch.workers nth_error].
  assert (Hnone : find_active_strategy
                    (set_strategies
                       (Dispatch.update_first (Dispatch.owned_by strategy_id user)
                          deactivated
                          (strategies (Dispatch.set_active strategy_id user
                                                           (Dispatch.store sys))))
                       (Dispatch.set_active strategy_id user (Dispatch.store sys)))
                    strategy_id = None).
  { apply find_active_strategy_none. cbn [set_strategies strategies].
    intros x Hx Hid.
    apply (update_first_inactive (Dispatch.owned_by strategy_id user) strategy_id
             (strategies (Dispatch.set_active strategy_id user (Dispatch.store sys)))
             (Dispatch.activated st)); auto.
    - cbn [Dispatch.set_active strategies]. rewrite update_first_ids; [exact Hnd |].
      reflexivity.
    - apply owned_by_id. }
  rewrite execute_strategy_eval, Hu. cbn [fresh_session committed].
  rewrite Hnone. cbn [snd committed].
  split; [reflexivity |]. cbn [Dispatch.store].
  repeat split. exact Hnone.
Qed.

Lemma deactivation_leaves_the_queued_job_witness :
  exists sys1 sys2 sys3 sys4 : Dispatch.System,
    Dispatch.activate_strategy demo_str 1%N 3%N (idle_pool (demo_db "momentum" false))
      = Some sys1 /\
    StrategyRoutes.deactivate 1%N 3%N sys1 = Some sys2 /\
    Dispatch.queue sys2 = [demo_str 1%N] /\
    Dispatch.worker_start sys2 = Some sys3 /\
    Dispatch.running sys3 = [demo_str 1%N] /\
    Dispatch.worker_finish (demo_world (map bar_at flat_then_drop)) 0 sys3 = Some sys4 /\
    Dispatch.store sys4 = Dispatch.store sys2 /\
    trades (Dispatch.store sys4) = [] /\
    find_active_strategy (Dispatch.store sys4) 1%N = None /\
    Dispatch.queue sys4 = [] /\
    Dispatch.running sys4 = [].
Proof.
  apply (deactivation_leaves_the_queued_job demo_str
           (demo_world (map bar_at flat_then_drop)) 1%N 3%N
           (idle_pool (demo_db "momentum" false)) (demo_strategy "momentum" false)).
  - repeat constructor. intros [].
  - reflexivity.
  - reflexivity.
  - reflexivity.
  - cbn. lia.
  - reflexivity.
Defined.

(** X9. The strategy routes write one row of the caller and nothing else.
    [activate_strategy] and [deactivate_strategy] leave every row in place;
    the one row they may change has the requested id and belongs to the
    caller, and it differs by [is_active] only.  When the caller owns no
    strategy of that id both answer 404 and nothing changes or is queued. *)
Theorem strategy_routes_touch_own_row_only (str : uuid -> string)
    (strategy_id user : uuid) (sys : Dispatch.System) :
  (forall sys' : Dispatch.System,
     Dispatch.activate_strategy str strategy_id user sys = Some sys' ->
     forall (i : nat) (st' : Strategy.t),
       nth_error (strategies (Dispatch.store sys')) i = Some st' ->
       exists st, nth_error (strategies (Dispatch.store sys)) i = Some st /\
                  (st' = st \/
                   (st' = Dispatch.activated st /\ Strategy.id st = strategy_id /\
                    Strategy.user_id st = user))) /\
  (forall db' : DB,
     StrategyRoutes.deactivate_strategy strategy_id user (Dispatch.store sys) = Some db' ->
     forall (i : nat) (st' : Strategy.t),
       nth_error (strategies db') i = Some st' ->
       exists st, nth_error (strategies (Dispatch.store sys)) i = Some st /\
                  (st' = st \/
                   (st' = deactivated st /\ Strategy.id st = strategy_id /\
                    Strategy.user_id st = user))) /\
  ((forall st, In st (strategies (Dispatch.store sys)) ->
               Strategy.id st = strategy_id -> Strategy.user_id st <> user) ->
   Dispatch.activate_strategy str strategy_id user sys = None /\
   StrategyRoutes.deactivate strategy_id user sys = None).
Proof.
  assert (Hown : forall x, Dispatch.owned_by strategy_id user x = true ->
                           Strategy.id x = strategy_id /\ Strategy.user_id x = user).
  { intros x H. apply andb_true_iff in H as [H1 H2].
    apply N.eqb_eq in H1. apply N.eqb_eq in H2. now split. }
  split; [| split].
  - unfold Dispatch.activate_strategy. intros sys' H.
    destruct (List.find _ (strategies (Dispatch.store sys))); [| discriminate].
    inversion H; subst sys'. cbn [Dispatch.store Dispatch.set_active strategies].
    intros i st' Hnth.
    destruct (update_first_rows _ _ _ _ _ Hnth) as (st & Hst & [-> | [-> Hp]]).
    + exists st. split; [exact Hst | now left].
    + exists st. split; [exact Hst |]. right. split; [reflexivity | now apply Hown].
  - unfold StrategyRoutes.deactivate_strategy. intros db' H.
    destruct (List.find _ (strategies (Dispatch.store sys))); [| discriminate].
    inversion H; subst db'. cbn [set_strategies strategies].
    intros i st' Hnth.
    destruct (update_first_rows _ _ _ _ _ Hnth) as (st & Hst & [-> | [-> Hp]]).
    + exists st. split; [exact Hst | now left].
    + exists st. split; [exact Hst |]. right. split; [reflexivity | now apply Hown].
  - intros Hnone.
    assert (Hfind : List.find (Dispatch.owned_by strategy_id user)
                              (strategies (Dispatch.store sys)) = None).
    { destruct (List.find _ _) as [x |] eqn:E; [| reflexivity].
      apply List.find_some in E as [Hin Hp]. destruct (Hown x Hp) as [H1 H2].
      now destruct (Hnone x Hin H1). }
    unfold Dispatch.activate_strategy, StrategyRoutes.deactivate,
      StrategyRoutes.deactivate_strategy.
    now rewrite Hfind.
Qed.

(** ** Rounding *)

Lemma Qltb_ge (x y : Q) : Qltb x y = false <-> (y <= x)%Q.
Proof.
  destruct (Qltb x y) eqn:E.
  - apply Qltb_lt in E. split; [discriminate | intros H; exfalso; lra].
  - split; [intros _ | reflexivity].
    destruct (Qlt_le_dec x y) as [H | H]; [| exact H].
    apply Qltb_lt in H. congruence.
Qed.

Lemma round_half_even_range (x : Q) :
  (Qfloor x <= Webull.round_half_even x <= Qfloor x + 1)%Z.
Proof.
  unfold Webull.round_half_even.
  destruct (Qltb _ _); [lia |]. destruct (Qltb _ _); [lia |].
  destruct (Z.even _); lia.
Qed.

Lemma round_half_even_mono (x y : Q) :
  (x <= y)%Q -> (Webull.round_half_even x <= Webull.round_half_even y)%Z.
Proof.
  intros Hxy. pose proof (Qfloor_resp_le _ _ Hxy) as Hf.
  pose proof (round_half_even_range x) as Hx.
  pose proof (round_half_even_range y) as Hy.
  destruct (Z.eq_dec (Qfloor x) (Qfloor y)) as [E | NE]; [| lia].
  unfold Webull.round_half_even. rewrite <- E.
  set (f := Qfloor x) in *.
  destruct (Qltb (x - inject_Z f) (1 # 2)) eqn:X1;
    destruct (Qltb (y - inject_Z f) (1 # 2)) eqn:Y1; try lia.
  - destruct (Qltb (1 # 2) (y - inject_Z f)); [lia |]. destruct (Z.even f); lia.
  - apply Qltb_lt in Y1. apply Qltb_ge in X1. exfalso. lra.
  - destruct (Qltb (1 # 2) (x - inject_Z f)) eqn:X2;
      destruct (Qltb (1 # 2) (y - inject_Z f)) eqn:Y2; try lia.
    + apply Qltb_lt in X2. apply Qltb_ge in Y2. exfalso. lra.
    + destruct (Z.even f); lia.
Qed.

Lemma round_half_even_int (n : Z) : Webull.round_half_even (inject_Z n) = n.
Proof.
  unfold Webull.round_half_even. rewrite Qfloor_Z.
  assert (E : Qltb (inject_Z n - inject_Z n) (1 # 2) = true).
  { apply Qltb_lt. lra. }
  now rewrite E.
Qed.

Lemma round2_mono (x y : Q) : (x <= y)%Q -> (Webull.round2 x <= Webull.round2 y)%Q.
Proof.
  intros H. unfold Webull.round2, Qle. cbn.
  apply Z.mul_le_mono_nonneg_r; [lia |].
  apply round_half_even_mono. lra.
Qed.

(** Rounding to cents keeps a value between two bounds given in cents. *)
Lemma round2_bounds (a b : Z) (x : Q) :
  (a # 100 <= x)%Q -> (x <= b # 100)%Q ->
  (a # 100 <= Webull.round2 x)%Q /\ (Webull.round2 x <= b # 100)%Q.
Proof.
  intros Ha Hb.
  assert (Ea : (inject_Z a <= x * 100)%Q).
  { unfold Qle in *. cbn in *. lia. }
  assert (Eb : (x * 100 <= inject_Z b)%Q).
  { unfold Qle in *. cbn in *. lia. }
  apply round_half_even_mono in Ea. apply round_half_even_mono in Eb.
  rewrite round_half_even_int in Ea, Eb.
  unfold Webull.round2, Qle. cbn. lia.
Qed.

Lemma py_max_ge (a b : Q) : (a <= Webull.py_max a b)%Q /\ (b <= Webull.py_max a b)%Q.
Proof.
  unfold Webull.py_max. destruct (Qltb a b) eqn:E.
  - apply Qltb_lt in E. lra.
  - apply Qltb_ge in E. lra.
Qed.

Lemma py_min_le (a b : Q) : (Webull.py_min a b <= a)%Q /\ (Webull.py_min a b <= b)%Q.
Proof.
  unfold Webull.py_min. destruct (Qltb b a) eqn:E.
  - apply Qltb_lt in E. lra.
  - apply Qltb_ge in E. lra.
Qed.

Lemma py_max_cases (a b : Q) : Webull.py_max a b = a \/ Webull.py_max a b = b.
Proof. unfold Webull.py_max. destruct (Qltb a b); auto. Qed.

Lemma py_min_cases (a b : Q) : Webull.py_min a b = a \/ Webull.py_min a b = b.
Proof. unfold Webull.py_min. destruct (Qltb b a); auto. Qed.

(** ** Sample bars *)

Lemma sample_bar_consistent (env : Webull.Env) (k : nat) (limit : Z) (i : nat) :
  Webull.random_ok env ->
  let b := Webull.sample_bar env k limit i in
  consistent_bar b /\
  (148 <= Webull.open b)%Q /\ (Webull.open b <= 152)%Q /\
  (147 <= Webull.close b)%Q /\ (Webull.close b <= 153)%Q /\
  (1465 # 10 <= Webull.low b)%Q /\ (Webull.high b <= 1535 # 10)%Q /\
  (500000 <= Webull.volume b)%Z /\ (Webull.volume b <= 2000000)%Z.
Proof.
  intros [Hu Hr]. cbv zeta. unfold Webull.sample_bar, consistent_bar.
  cbn [Webull.open Webull.high Webull.low Webull.close Webull.volume].
  destruct (Hu (k + 5 * i)%nat (-2)%Q 2%Q ltac:(lra)) as [A1 A2].
  destruct (Hu (k + 5 * i + 1)%nat (-1)%Q 1%Q ltac:(lra)) as [B1 B2].
  destruct (Hu (k + 5 * i + 2)%nat 0%Q (1 # 2)%Q ltac:(lra)) as [C1 C2].
  destruct (Hu (k + 5 * i + 3)%nat 0%Q (1 # 2)%Q ltac:(lra)) as [D1 D2].
  destruct (Hr (k + 5 * i + 4)%nat 500000%Z 2000000%Z ltac:(lia)) as [V1 V2].
  set (u1 := Webull.uniform env (k + 5 * i) (-2) 2) in *.
  set (u2 := Webull.uniform env (k + 5 * i + 1) (-1) 1) in *.
  set (u3 := Webull.uniform env (k + 5 * i + 2) 0 (1 # 2)) in *.
  set (u4 := Webull.uniform env (k + 5 * i + 3) 0 (1 # 2)) in *.
  set (o := (150 + u1)%Q). set (c := (o + u2)%Q).
  destruct (py_max_ge o c) as [M1 M2]. destruct (py_min_le o c) as [N1 N2].
  assert (M3 : (Webull.py_max o c <= 153)%Q).
  { destruct (py_max_cases o c) as [-> | ->]; unfold c, o; lra. }
  assert (N3 : (147 <= Webull.py_min o c)%Q).
  { destruct (py_min_cases o c) as [-> | ->]; unfold c, o; lra. }
  destruct (round2_bounds 14800 15200 o) as [O1 O2]; [unfold o; lra | unfold o; lra |].
  destruct (round2_bounds 14700 15300 c) as [P1 P2];
    [unfold c, o; lra | unfold c, o; lra |].
  destruct (round2_bounds 14650 15350 (Webull.py_min o c - u4)) as [L1 _];
    [lra | lra |].
  destruct (round2_bounds 14650 15350 (Webull.py_max o c + u3)) as [_ H2];
    [lra | lra |].
  repeat split; try lia; try lra; apply round2_mono; lra.
Qed.

Lemma sample_bars_length_and_shape (env : Webull.Env) (k : nat) (symbol : json)
    (limit : Z) :
  Webull.random_ok env ->
  length (Webull._get_sample_bars env k symbol limit) = Z.to_nat limit /\
  forall b : Webull.OHLCV,
    In b (Webull._get_sample_bars env k symbol limit) ->
    consistent_bar b /\
    (148 <= Webull.open b)%Q /\ (Webull.open b <= 152)%Q /\
    (147 <= Webull.close b)%Q /\ (Webull.close b <= 153)%Q /\
    (1465 # 10 <= Webull.low b)%Q /\ (Webull.high b <= 1535 # 10)%Q /\
    (500000 <= Webull.volume b)%Z /\ (Webull.volume b <= 2000000)%Z.
Proof.
  intros Hok. unfold Webull._get_sample_bars. split.
  - now rewrite length_map, length_seq.
  - intros b Hb. apply in_map_iff in Hb as (i & <- & _).
    now apply sample_bar_consistent.
Qed.

(** X10. Sample bars are well-formed.  Whatever the generator draws within
    the bounds it is asked for, [_get_sample_bars] returns exactly [limit]
    bars (none for a limit of zero or less), and in each the low is at most
    the open and the close and the high at least both, the open lies in
    [148, 152], the close in [147, 153], low and high within [146.5, 153.5]
    and the volume in [500000, 2000000]. *)
Theorem sample_bars_are_consistent (env : Webull.Env) (k : nat) (symbol : json)
    (limit : Z) :
  Webull.random_ok env ->
  length (Webull._get_sample_bars env k symbol limit) = Z.to_nat limit /\
  forall b : Webull.OHLCV,
    In b (Webull._get_sample_bars env k symbol limit) ->
    consistent_bar b /\
    (148 <= Webull.open b)%Q /\ (Webull.open b <= 152)%Q /\
    (147 <= Webull.close b)%Q /\ (Webull.close b <= 153)%Q /\
    (1465 # 10 <= Webull.low b)%Q /\ (Webull.high b <= 1535 # 10)%Q /\
    (500000 <= Webull.volume b)%Z /\ (Webull.volume b <= 2000000)%Z.
Proof.
  intros Hok. unfold Webull._get_sample_bars. split.
  - now rewrite length_map, length_seq.
  - intros b Hb. apply in_map_iff in Hb as (i & <- & _).
    now apply sample_bar_consistent.
Qed.

Lemma lowest_env_ok : Webull.random_ok lowest_env.
Proof. split; intros k a b H; cbn; split; [lra | exact H | lia | exact H]. Qed.

Lemma sample_bars_are_consistent_witness :
  length (Webull._get_sample_bars lowest_env 0 (JStr "AAPL") 100) = 100%nat.
Proof.
  exact (proj1 (sample_bars_are_consistent lowest_env 0 (JStr "AAPL") 100 lowest_env_ok)).
Defined.

(** ** Bars of the service *)

Lemma convert_bars_converted (env : Webull.Env) (data : list (gmap string json))
    (bars : list Webull.OHLCV) :
  Webull.convert_bars env data = Ok bars -> converted env data bars.
Proof.
  revert bars. induction data as [| d rest IH]; intros bars H; cbn in H.
  - inversion H. constructor.
  - destruct (Webull.convert_bar env d) as [b | e] eqn:Hb; cbn in H; [| discriminate].
    destruct (Webull.convert_bars env rest) as [bs | e] eqn:Hbs; cbn in H;
      [| discriminate].
    inversion H. constructor; [exact Hb | now apply IH].
Qed.

Lemma convert_bars_raise (env : Webull.Env) (data : list (gmap string json))
    (d : gmap string json) (e : string) :
  In d data -> Webull.convert_bar env d = Raise e ->
  exists e', Webull.convert_bars env data = Raise e'.
Proof.
  induction data as [| d0 rest IH]; intros Hin Hd; [destruct Hin |].
  cbn. destruct Hin as [-> | Hin].
  - rewrite Hd. cbn. now exists e.
  - destruct (Webull.convert_bar env d0) as [b | e0]; cbn; [| now exists e0].
    destruct (IH Hin Hd) as [e' ->]. cbn. now exists e'.
Qed.

(** X11. The bars of the service are never a mixture.  [get_bars] answers
    either with the sample bars, or with the conversion of the complete,
    non-empty answer of the SDK: as many bars as the SDK gave, each the
    conversion of the bar at the same place. *)
Theorem service_bars_all_or_nothing (svc : Webull.WebullService) (env : Webull.Env)
    (k : nat) (symbol : json) (timeframe : string) (limit : Z) :
  Webull.get_bars svc env k symbol timeframe limit
    = Webull._get_sample_bars env k symbol limit \/
  exists (c : Webull.Client) (data : list (gmap string json)),
    Webull.client svc = Some c /\
    Webull.market_get_bars c symbol timeframe limit = Ok data /\
    data <> [] /\
    converted env data (Webull.get_bars svc env k symbol timeframe limit) /\
    length (Webull.get_bars svc env k symbol timeframe limit) = length data.
Proof.
  unfold Webull.get_bars.
  destruct (Webull.client svc) as [c |]; [| now left].
  destruct (Webull.market_get_bars c symbol timeframe limit) as [data | e] eqn:Hd;
    cbn [rbind]; [| now left].
  destruct data as [| d rest]; [now left |].
  destruct (Webull.convert_bars env (d :: rest)) as [bars | e] eqn:Hb; cbn [rbind];
    [| now left].
  right. exists c, (d :: rest). repeat split; try easy.
  - now apply convert_bars_converted.
  - symmetry. apply convert_bars_converted in Hb. unfold converted in Hb.
    exact (Forall2_length _ _ _ Hb).
Qed.

(** X12. One bad bar discards the answer of the SDK.  When a single bar of
    the SDK's answer has a field that [float] or [int] rejects, [get_bars]
    returns the sample bars, and none of the bars the SDK sent. *)
Theorem bad_bar_discards_sdk_answer (svc : Webull.WebullService) (env : Webull.Env)
    (k : nat) (symbol : json) (timeframe : string) (limit : Z)
    (c : Webull.Client) (data : list (gmap string json)) (d : gmap string json)
    (e : string) :
  Webull.client svc = Some c ->
  Webull.market_get_bars c symbol timeframe limit = Ok data ->
  In d data ->
  Webull.convert_bar env d = Raise e ->
  Webull.get_bars svc env k symbol timeframe limit
    = Webull._get_sample_bars env k symbol limit.
Proof.
  intros Hc Hd Hin Hbad. unfold Webull.get_bars. rewrite Hc, Hd. cbn [rbind].
  destruct data as [| d0 rest]; [reflexivity |].
  destruct (convert_bars_raise env (d0 :: rest) d e Hin Hbad) as [e' ->].
  reflexivity.
Qed.

Lemma bad_bar_discards_sdk_answer_witness :
  Webull.get_bars (service_of (bars_client [good_bar; bad_bar]) JNull) lowest_env 0
                  (JStr "AAPL") "1D" 2
    = Webull._get_sample_bars lowest_env 0 (JStr "AAPL") 2.
Proof.
  apply (bad_bar_discards_sdk_answer _ lowest_env 0 (JStr "AAPL") "1D" 2
           (bars_client [good_bar; bad_bar]) [good_bar; bad_bar] bad_bar
           "TypeError: float() argument must be a string or a real number").
  - reflexivity.
  - reflexivity.
  - right; left; reflexivity.
  - vm_compute. reflexivity.
Defined.

(** ** The service as the provider of the signal checks *)

Lemma check_signal_some (w : World) (strategy : Strategy.t) (sig : Signal.t) :
  check_signal w strategy = Some sig ->
  exists (limit least : nat) (bars : list Bar.t) (closes : list Q) (side : string),
    ((Strategy.strategy_type strategy = "momentum" /\ limit = 100%nat /\ least = 50%nat) \/
     (Strategy.strategy_type strategy = "mean_reversion" /\ limit = 50%nat /\ least = 20%nat)) /\
    get_bars w (dict_get (Strategy.parameters strategy) "symbol" (JStr "AAPL")) "1D" limit
      = Ok bars /\
    (least <= length bars)%nat /\
    closes_of bars = Ok closes /\
    sig = intent_of strategy side (latest_close closes).
Proof.
  unfold check_signal, _check_momentum_signal, _check_mean_reversion_signal.
  destruct (String.eqb_spec (Strategy.strategy_type strategy) "momentum") as [Ht | _].
  - destruct (talib w) as [lib |]; [| discriminate].
    destruct (momentum_body w lib strategy) as [[s |] | e] eqn:Hbody; cbn [or_none];
      try discriminate.
    intros H. inversion H; subst s.
    destruct (momentum_body_some _ _ _ _ Hbody)
      as (bars & closes & side & Hbars & Hlen & Hcl & _ & Hsig).
    exists 100%nat, 50%nat, bars, closes, side. repeat split; auto.
  - destruct (String.eqb_spec (Strategy.strategy_type strategy) "mean_reversion")
      as [Ht | _]; [| discriminate].
    destruct (talib w) as [lib |]; [| discriminate].
    destruct (mean_reversion_body w lib strategy) as [[s |] | e] eqn:Hbody;
      cbn [or_none]; try discriminate.
    intros H. inversion H; subst s.
    destruct (mean_reversion_body_some _ _ _ _ Hbody)
      as (bars & closes & side & Hbars & Hlen & Hcl & _ & Hsig).
    exists 50%nat, 20%nat, bars, closes, side. repeat split; auto.
Qed.

Lemma Ok_inj {A : Type} (a b : A) : Ok a = Ok b -> a = b.
Proof. intros H. now inversion H. Qed.

Lemma closes_of_to_bar (bars : list Webull.OHLCV) :
  closes_of (map to_bar bars) = Ok (map Webull.close bars).
Proof.
  induction bars as [| b rest IH]; [reflexivity |].
  cbn. rewrite IH. reflexivity.
Qed.

(** X13. Demo bars always feed the checks.  When the service has no client
    and the generator keeps within the bounds it is asked for, a signal
    check that reads its bars from the service never meets the
    insufficient-data case, and every intent it emits carries a price
    between 147 and 153. *)
Theorem demo_service_feeds_the_checks (svc : Webull.WebullService) (env : Webull.Env)
    (k : nat) (parse : string -> option uuid) (lib : option Talib)
    (commits : list Trade.t -> option string) (now : timestamp)
    (strategy : Strategy.t) :
  Webull.client svc = None ->
  Webull.random_ok env ->
  let w := world_of_service svc env k parse lib commits now in
  ~ series_too_short w strategy /\
  forall sig : Signal.t,
    check_signal w strategy = Some sig ->
    (147 <= Signal.price sig)%Q /\ (Signal.price sig <= 153)%Q.
Proof.
  intros Hc Hok w.
  assert (Hbars : forall (symbol : json) (limit : nat),
            get_bars w symbol "1D" limit
              = Ok (map to_bar (Webull._get_sample_bars env k symbol (Z.of_nat limit)))).
  { intros symbol limit. unfold w, world_of_service. cbn [get_bars].
    unfold Webull.get_bars. now rewrite Hc. }
  assert (Hlen : forall (symbol : json) (limit : nat),
            length (map to_bar (Webull._get_sample_bars env k symbol (Z.of_nat limit)))
              = limit).
  { intros symbol limit. rewrite length_map.
    rewrite (proj1 (sample_bars_length_and_shape env k symbol (Z.of_nat limit) Hok)).
    apply Nat2Z.id. }
  split.
  - intros [[_ (bars & Hb & Hl)] | [_ (bars & Hb & Hl)]];
      rewrite Hbars in Hb; apply Ok_inj in Hb; subst bars; rewrite Hlen in Hl; lia.
  - intros sig Hsig.
    destruct (check_signal_some w strategy sig Hsig)
      as (limit & least & bars & closes & side & Hty & Hb & Hl & Hcl & ->).
    rewrite Hbars in Hb. apply Ok_inj in Hb. subst bars.
    rewrite closes_of_to_bar in Hcl. apply Ok_inj in Hcl. subst closes.
    cbn [intent_of Signal.price].
    assert (Hpos : (0 < length (map Webull.close
               (Webull._get_sample_bars env k
                  (dict_get (Strategy.parameters strategy) "symbol" (JStr "AAPL"))
                  (Z.of_nat limit))))%nat).
    { rewrite length_map. rewrite length_map in Hl.
      destruct Hty as [(_ & _ & ->) | (_ & _ & ->)]; lia. }
    apply latest_close_in in Hpos. apply in_map_iff in Hpos as (b & <- & Hin).
    destruct (proj2 (sample_bars_length_and_shape env k _ _ Hok) b Hin)
      as (_ & _ & _ & H1 & H2 & _).
    split; assumption.
Qed.

Lemma demo_service_feeds_the_checks_witness :
  ~ series_too_short service_world (demo_strategy "momentum" true).
Proof.
  exact (proj1 (demo_service_feeds_the_checks demo_service lowest_env 0 demo_UUID
                  (Some reference_talib) (fun _ => None) 1700000000%N
                  (demo_strategy "momentum" true) eq_refl lowest_env_ok)).
Defined.

(** ** Orders *)

Lemma service_place_order_sent (svc : Webull.WebullService) (symbol side : string)
    (quantity : Z) (order_type : string) (price : option Q) (time_in_force : string)
    (r : Webull.OrderRequest) :
  In r (Webull.place_order svc symbol side quantity order_type price time_in_force).2 ->
  (exists c, Webull.client svc = Some c) /\
  Webull.truthy (Webull.account_id svc) = true /\
  Webull.place_order svc symbol side quantity order_type price time_in_force
    = ((Webull.place_order svc symbol side quantity order_type price time_in_force).1, [r]) /\
  r = Webull.order_request svc symbol side quantity order_type price time_in_force.
Proof.
  unfold Webull.place_order.
  destruct (Webull.client svc) as [c |]; [| intros []].
  destruct (Webull.truthy (Webull.account_id svc)); cbn [negb]; [| intros []].
  destruct (Webull.trade_place_order c _) as [data | e].
  - destruct (decide (data = ∅)); cbn [snd fst]; intros [<- | []];
      (split; [now exists c | repeat split]).
  - cbn [snd fst]. intros [<- | []]. split; [now exists c | repeat split].
Qed.


Lemma init_client (sdk : option (option string -> option string -> result Webull.Client))
    (key secret : option string) (env_name : string) (c : Webull.Client) :
  Webull.client (Webull.init sdk key secret env_name) = Some c ->
  exists new_client,
    sdk = Some new_client /\ Webull.given key = true /\ Webull.given secret = true /\
    new_client key secret = Ok c /\
    Webull.account_id (Webull.init sdk key secret env_name)
      = match Webull.account_get_account_list c with
        | Ok (first :: _) => dict_get first "account_id" JNull
        | _ => JNull
        end.
Proof.
  unfold Webull.init. destruct sdk as [new_client |]; [| discriminate].
  destruct (Webull.given key); [| discriminate].
  destruct (Webull.given secret); [| discriminate]. cbn [andb].
  destruct (new_client key secret) as [c' | e] eqn:Hn; [| discriminate].
  cbn [Webull.client Webull.account_id]. intros H. inversion H; subst c'.
  exists new_client. repeat split; auto.
Qed.

Lemma order_reaches_sdk_only_if_configured
    (sdk : option (option string -> option string -> result Webull.Client))
    (key secret : option string) (env_name : string)
    (request : WebullRoutes.PlaceOrderRequest) (r : Webull.OrderRequest) :
  In r (WebullRoutes.place_order (Webull.init sdk key secret env_name) request).2 ->
  exists new_client : option string -> option string -> result Webull.Client,
    sdk = Some new_client /\ Webull.given key = true /\ Webull.given secret = true.
Proof.
  set (svc := Webull.init sdk key secret env_name).
  unfold WebullRoutes.place_order.
  destruct (negb _); [intros [] |].
  destruct (_ && _); [intros [] |].
  destruct (Webull.place_order svc _ _ _ _ _ _) as [[order |] sent] eqn:Hs;
    cbn [snd]; intros Hin.
  all: pose proof (service_place_order_sent svc
                     (Webull.upper (WebullRoutes.symbol request))
                     (WebullRoutes.side request) (WebullRoutes.quantity request)
                     (WebullRoutes.order_type request) (WebullRoutes.price request)
                     (WebullRoutes.time_in_force request) r) as H;
    rewrite Hs in H; cbn [fst snd] in H;
    destruct (H Hin) as ([c Hc] & _);
    destruct (init_client sdk key secret env_name c Hc)
      as (new_client & -> & Hk & Hsec & _);
    exists new_client; repeat split; auto.
Qed.

(** X15. No order leaves an unconfigured service.  A request of the order
    route reaches the SDK only if the service was built with the SDK
    importable, a non-empty key and a non-empty secret, the client could be
    constructed, and the account list answered with a first account whose
    identifier is set; the request then names that account. *)
Theorem order_needs_configured_service
    (sdk : option (option string -> option string -> result Webull.Client))
    (key secret : option string) (env_name : string)
    (request : WebullRoutes.PlaceOrderRequest) (r : Webull.OrderRequest) :
  In r (WebullRoutes.place_order (Webull.init sdk key secret env_name) request).2 ->
  exists (new_client : option string -> option string -> result Webull.Client)
         (c : Webull.Client) (first : gmap string json) (rest : list (gmap string json)),
    sdk = Some new_client /\
    Webull.given key = true /\ Webull.given secret = true /\
    new_client key secret = Ok c /\
    Webull.account_get_account_list c = Ok (first :: rest) /\
    Webull.truthy (dict_get first "account_id" JNull) = true /\
    Webull.request_account_id r = dict_get first "account_id" JNull.
Proof.
  set (svc := Webull.init sdk key secret env_name).
  unfold WebullRoutes.place_order.
  destruct (negb _); [intros [] |].
  destruct (_ && _); [intros [] |].
  destruct (Webull.place_order svc _ _ _ _ _ _) as [[order |] sent] eqn:Hs;
    cbn [snd]; intros Hin.
  all: pose proof (service_place_order_sent svc
                     (Webull.upper (WebullRoutes.symbol request))
                     (WebullRoutes.side request) (WebullRoutes.quantity request)
                     (WebullRoutes.order_type request) (WebullRoutes.price request)
                     (WebullRoutes.time_in_force request) r) as H;
    rewrite Hs in H; cbn [fst snd] in H;
    destruct (H Hin) as ([c Hc] & Ht & _ & Hr);
    destruct (init_client sdk key secret env_name c Hc)
      as (new_client & -> & Hk & Hsec & Hn & Hacc);
    fold svc in Hacc; rewrite Hacc in Ht;
    destruct (Webull.account_get_account_list c) as [[| first rest] | e] eqn:Hl;
    try discriminate;
    exists new_client, c, first, rest; repeat split; auto;
    rewrite Hr; unfold Webull.order_request; cbn [Webull.request_account_id];
    exact Hacc.
Qed.

Lemma order_needs_configured_service_witness :
  exists (new_client : option string -> option string -> result Webull.Client)
         (c : Webull.Client) (first : gmap string json) (rest : list (gmap string json)),
    Some working_sdk = Some new_client /\
    Webull.given (Some "key") = true /\ Webull.given (Some "secret") = true /\
    new_client (Some "key") (Some "secret") = Ok c /\
    Webull.account_get_account_list c = Ok (first :: rest) /\
    Webull.truthy (dict_get first "account_id" JNull) = true /\
    Webull.request_account_id
      (Webull.order_request
         (Webull.init (Some working_sdk) (Some "key") (Some "secret") "production")
         "AAPL" "BUY" 10 "LIMIT" (Some (150 # 1)) "DAY")
      = dict_get first "account_id" JNull.
Proof.
  apply (order_needs_configured_service (Some working_sdk) (Some "key")
           (Some "secret") "production" limit_order).
  vm_compute. left. reflexivity.
Defined.

(** X16. An unconfigured service accepts orders it does not place.  When
    the service has no client or no account, a request with a valid order
    type (and a price, for LIMIT and STOP_LIMIT) is answered with the demo
    order, and nothing is sent to the SDK. *)
Theorem unconfigured_service_answers_demo_order (svc : Webull.WebullService)
    (request : WebullRoutes.PlaceOrderRequest) :
  Webull.client svc = None \/ Webull.truthy (Webull.account_id svc) = false ->
  WebullRoutes.valid_order_type (WebullRoutes.order_type request) = true ->
  (Webull.is_limit (WebullRoutes.order_type request) = true ->
   Webull.priced (WebullRoutes.price request) = true) ->
  WebullRoutes.place_order svc request = (Http200 Webull.demo_order, []).
Proof.
  intros Hsvc Hv Hp. unfold WebullRoutes.place_order. rewrite Hv. cbn [negb].
  destruct (Webull.is_limit (WebullRoutes.order_type request)) eqn:Hl.
  - rewrite (Hp eq_refl). cbn [andb negb]. unfold Webull.place_order.
    destruct Hsvc as [-> | Ht]; [reflexivity |].
    destruct (Webull.client svc); [| reflexivity]. now rewrite Ht.
  - cbn [andb]. unfold Webull.place_order.
    destruct Hsvc as [-> | Ht]; [reflexivity |].
    destruct (Webull.client svc); [| reflexivity]. now rewrite Ht.
Qed.

Lemma unconfigured_service_answers_demo_order_witness :
  WebullRoutes.place_order demo_service limit_order = (Http200 Webull.demo_order, []).
Proof.
  apply unconfigured_service_answers_demo_order.
  - left. reflexivity.
  - reflexivity.
  - intros _. reflexivity.
Defined.

(** X17. An order is never cancelled.  Whatever the service and the order,
    [cancel_order] of the service returns [False], so the route answers
    400 "Failed to cancel order" and never its success message. *)
Theorem cancel_order_always_fails (svc : Webull.WebullService) (order : string) :
  Webull.cancel_order svc order = false /\
  WebullRoutes.cancel_order svc order = HttpError 400 "Failed to cancel order".
Proof.
  assert (H : Webull.cancel_order svc order = false).
  { unfold Webull.cancel_order. now destruct (Webull.client svc). }
  split; [exact H |]. unfold WebullRoutes.cancel_order. now rewrite H.
Qed.

(** X18. The first call fixes the service.  [get_webull_service] builds
    the instance on the first call only: a later call returns that
    instance and ignores its own arguments.  So when the first call came
    without the SDK, key or secret, no later call, whatever credentials it
    passes, lets an order reach the SDK. *)
Theorem first_call_fixes_the_service
    (sdk sdk' : option (option string -> option string -> result Webull.Client))
    (key secret key' secret' : option string) (env_name env_name' : string)
    (request : WebullRoutes.PlaceOrderRequest) :
  let first := Webull.get_webull_service sdk key secret env_name None in
  let later := Webull.get_webull_service sdk' key' secret' env_name' first.2 in
  first.1 = Webull.init sdk key secret env_name /\
  later = first /\
  (sdk = None \/ Webull.given key = false \/ Webull.given secret = false ->
   (WebullRoutes.place_order later.1 request).2 = []).
Proof.
  cbv zeta. unfold Webull.get_webull_service. cbn [fst snd].
  repeat split. intros Hun.
  destruct (WebullRoutes.place_order _ request).2 as [| r rest] eqn:Hs; [reflexivity |].
  destruct (order_reaches_sdk_only_if_configured sdk key secret env_name request r)
    as (new_client & Hsdk & Hk & Hsec).
  - rewrite Hs. now left.
  - destruct Hun as [-> | [Hf | Hf]]; congruence.
Qed.

(** ** Symbol search *)

Lemma append_cons (x : Ascii.ascii) (a b : string) :
  String x a ++ b = String x (a ++ b).
Proof. reflexivity. Qed.

Lemma append_nil_l (a : string) : "" ++ a = a.
Proof. reflexivity. Qed.

Lemma append_nil_r (a : string) : a ++ "" = a.
Proof.
  induction a as [| x a IH]; [reflexivity | now rewrite append_cons, IH].
Qed.

Lemma append_assoc (a b c : string) : (a ++ b) ++ c = a ++ (b ++ c).
Proof.
  induction a as [| x a IH]; [reflexivity | now rewrite !append_cons, IH].
Qed.

Lemma is_prefix_spec (p s : string) :
  Webull.is_prefix p s = true <-> exists post, s = p ++ post.
Proof.
  revert s. induction p as [| a p IH]; intros s; cbn [Webull.is_prefix].
  - split; [intros _; now exists s | reflexivity].
  - destruct s as [| b s].
    + split; [discriminate | intros [post H]; rewrite append_cons in H; discriminate].
    + rewrite andb_true_iff, IH. split.
      * intros [Hab [post ->]]. apply Ascii.eqb_eq in Hab as ->. now exists post.
      * intros [post H]. rewrite append_cons in H. inversion H; subst.
        split; [apply Ascii.eqb_refl | now exists post].
Qed.

Lemma contains_spec (needle hay : string) :
  Webull.contains needle hay = true <-> exists pre post, hay = pre ++ needle ++ post.
Proof.
  induction hay as [| b hay IH]; cbn [Webull.contains].
  - rewrite orb_false_r, is_prefix_spec. split.
    + intros [post H]. now exists "", post.
    + intros (pre & post & H). destruct pre as [| x pre].
      * now exists post.
      * rewrite append_cons in H. discriminate.
  - rewrite orb_true_iff, is_prefix_spec, IH. split.
    + intros [[post H] | (pre & post & ->)].
      * now exists "", post.
      * now exists (String b pre), post.
    + intros (pre & post & H). destruct pre as [| x pre].
      * left. now exists post.
      * right. rewrite append_cons in H. inversion H; subst. now exists pre, post.
Qed.

Lemma contains_refl (s : string) : Webull.contains s s = true.
Proof.
  apply contains_spec. exists "", "". now rewrite append_nil_l, append_nil_r.
Qed.

Lemma contains_trans (a b c : string) :
  Webull.contains a b = true -> Webull.contains b c = true ->
  Webull.contains a c = true.
Proof.
  rewrite !contains_spec. intros (p1 & q1 & ->) (p2 & q2 & ->).
  exists (p2 ++ p1), (q1 ++ q2). now rewrite !append_assoc.
Qed.

Lemma lower_app (a b : string) : Webull.lower (a ++ b) = Webull.lower a ++ Webull.lower b.
Proof.
  induction a as [| x a IH]; [reflexivity |].
  rewrite append_cons. cbn [Webull.lower]. now rewrite append_cons, IH.
Qed.

Lemma contains_lower (a b : string) :
  Webull.contains a b = true ->
  Webull.contains (Webull.lower a) (Webull.lower b) = true.
Proof.
  rewrite !contains_spec. intros (p & q & ->).
  exists (Webull.lower p), (Webull.lower q). now rewrite !lower_app.
Qed.

Lemma lower_upper_ascii (c : Ascii.ascii) :
  Webull.lower_ascii (Webull.upper_ascii c) = Webull.lower_ascii c.
Proof. destruct c as [[] [] [] [] [] [] [] []]; reflexivity. Qed.

Lemma lower_lower_ascii (c : Ascii.ascii) :
  Webull.lower_ascii (Webull.lower_ascii c) = Webull.lower_ascii c.
Proof. destruct c as [[] [] [] [] [] [] [] []]; reflexivity. Qed.

Lemma lower_upper (s : string) : Webull.lower (Webull.upper s) = Webull.lower s.
Proof.
  induction s as [| c s IH]; cbn; [reflexivity | now rewrite IH, lower_upper_ascii].
Qed.

Lemma lower_lower (s : string) : Webull.lower (Webull.lower s) = Webull.lower s.
Proof.
  induction s as [| c s IH]; cbn; [reflexivity | now rewrite IH, lower_lower_ascii].
Qed.

Lemma sample_symbols_in (query : string) (e : Webull.SymbolEntry) :
  In e (Webull._get_sample_symbols query) <->
  exists row, In row Webull.sample_symbols /\
              Webull.matches (Webull.lower query) row = true /\
              e = Webull.entry_of row.
Proof.
  unfold Webull._get_sample_symbols. rewrite in_map_iff. split.
  - intros (row & <- & H). apply filter_In in H as [H1 H2]. now exists row.
  - intros (row & H1 & H2 & ->). exists row. split; [reflexivity |].
    apply filter_In. now split.
Qed.

(** X19. The sample search ignores letter case and narrows with the query.
    For a query of ASCII characters: the sample results are those of its
    upper-case and of its lower-case spelling; every result of the query is
    a result of each query contained in it, so the empty query finds every
    entry of the table; and an entry is found by its key and by its ticker
    symbol. *)
Theorem sample_search_case_and_narrowing (query : string) :
  Webull.ascii_only query = true ->
  Webull._get_sample_symbols (Webull.upper query) = Webull._get_sample_symbols query /\
  Webull._get_sample_symbols (Webull.lower query) = Webull._get_sample_symbols query /\
  (forall (shorter : string) (e : Webull.SymbolEntry),
     Webull.contains shorter query = true ->
     In e (Webull._get_sample_symbols query) ->
     In e (Webull._get_sample_symbols shorter)) /\
  (forall e : Webull.SymbolEntry,
     In e (Webull._get_sample_symbols query) ->
     In e (Webull._get_sample_symbols "")) /\
  (forall row : string * (string * string),
     In row Webull.sample_symbols ->
     Webull.lower query = row.1 \/ Webull.lower query = Webull.lower row.2.1 ->
     In (Webull.entry_of row) (Webull._get_sample_symbols query)).
Proof.
  intros _.
  assert (Hnarrow : forall (shorter : string) (e : Webull.SymbolEntry),
     Webull.contains shorter query = true ->
     In e (Webull._get_sample_symbols query) ->
     In e (Webull._get_sample_symbols shorter)).
  { intros shorter e Hc He. apply sample_symbols_in in He as (row & Hin & Hm & ->).
    apply sample_symbols_in. exists row. repeat split; auto.
    apply contains_lower in Hc. unfold Webull.matches in *.
    apply orb_true_iff in Hm. apply orb_true_iff.
    destruct Hm as [Hm | Hm]; [left | right]; eapply contains_trans; eauto. }
  unfold Webull._get_sample_symbols at 1 3. rewrite lower_upper, lower_lower.
  repeat split; auto.
  - intros e He. apply (Hnarrow "" e); [| exact He].
    apply contains_spec. now exists "", query.
  - intros row Hin Hq. apply sample_symbols_in. exists row. repeat split; auto.
    unfold Webull.matches. apply orb_true_iff.
    destruct Hq as [-> | ->]; [left | right]; apply contains_refl.
Qed.

Lemma sample_search_case_and_narrowing_witness :
  Webull._get_sample_symbols (Webull.upper "Tsla") = Webull._get_sample_symbols "Tsla".
Proof.
  exact (proj1 (sample_search_case_and_narrowing "Tsla" eq_refl)).
Defined.

(** ** Quotes *)

Lemma sample_quote_in_range (env : Webull.Env) (k : nat) (symbol : json) :
  Webull.random_ok env -> sample_quote_range (Webull._get_sample_quote env k symbol).
Proof.
  intros [Hu Hr]. unfold sample_quote_range, Webull._get_sample_quote.
  cbn [Webull.price Webull.bid Webull.ask Webull.quote_volume Webull.change
       Webull.change_percent].
  destruct (Hu k (-5)%Q 5%Q ltac:(lra)) as [A1 A2].
  destruct (Hu (k + 2)%nat (-2)%Q 2%Q ltac:(lra)) as [B1 B2].
  destruct (Hu (k + 3)%nat (- (3 # 2))%Q (3 # 2)%Q ltac:(lra)) as [C1 C2].
  destruct (Hr (k + 1)%nat 1000000%Z 10000000%Z ltac:(lia)) as [V1 V2].
  destruct (round2_bounds 14500 15500 (150 + Webull.uniform env k (-5) 5))
    as [P1 P2]; [lra | lra |].
  destruct (round2_bounds (-200) 200 (Webull.uniform env (k + 2) (-2) 2))
    as [Q1 Q2]; [lra | lra |].
  destruct (round2_bounds (-150) 150
              (Webull.uniform env (k + 3) (- (3 # 2)) (3 # 2)))
    as [R1 R2]; [lra | lra |].
  repeat split; try lia; try lra; reflexivity.
Qed.

(** X20. The quote route always answers.  Whatever the SDK does, the route
    returns a quote for the symbol in upper case and never its 404; the
    quote is the conversion of the first entry of the SDK's answer or the
    sample quote, whose price is between 145 and 155, bid 149.95 and ask
    150.05, when the generator keeps within the bounds it is asked for. *)
Theorem quote_route_always_answers (svc : Webull.WebullService) (env : Webull.Env)
    (k : nat) (symbol : string) :
  Webull.random_ok env ->
  exists q : Webull.Quote,
    WebullRoutes.get_quote svc env k symbol = Http200 q /\
    Webull.quote_symbol q = JStr (Webull.upper symbol) /\
    ((q = Webull._get_sample_quote env k (JStr (Webull.upper symbol)) /\
      sample_quote_range q) \/
     exists (c : Webull.Client) (first : gmap string json)
            (rest : list (gmap string json)),
       Webull.client svc = Some c /\
       Webull.market_get_quote c (JStr (Webull.upper symbol)) = Ok (first :: rest) /\
       Webull.convert_quote env (JStr (Webull.upper symbol)) first = Ok q).
Proof.
  intros Hok. unfold WebullRoutes.get_quote, Webull.get_quote.
  set (s := JStr (Webull.upper symbol)).
  assert (Hsample : exists q : Webull.Quote,
            Http200 (Webull._get_sample_quote env k s) = Http200 q /\
            Webull.quote_symbol q = s /\
            ((q = Webull._get_sample_quote env k s /\ sample_quote_range q) \/
             exists (c : Webull.Client) (first : gmap string json)
                    (rest : list (gmap string json)),
               Webull.client svc = Some c /\
               Webull.market_get_quote c s = Ok (first :: rest) /\
               Webull.convert_quote env s first = Ok q)).
  { exists (Webull._get_sample_quote env k s). repeat split.
    left. split; [reflexivity | now apply sample_quote_in_range]. }
  destruct (Webull.client svc) as [c |] eqn:Hc.
  2: { destruct Hsample as (q & H1 & H2 & [H3 | (c & _ & _ & Hx & _)]);
         [| discriminate]. exists q. repeat split; auto. }
  destruct (Webull.market_get_quote c s) as [[| first rest] | e] eqn:Hq; cbn [rbind].
  1, 3: destruct Hsample as (q & H1 & H2 & [H3 | (c' & f & r & Hx & Hy & Hz)]);
         exists q; repeat split; auto; right; exists c', f, r; repeat split; auto;
         congruence.
  destruct (Webull.convert_quote env s first) as [q | e] eqn:Hconv; cbn [rbind].
  - exists q. repeat split.
    + revert Hconv. unfold Webull.convert_quote.
      repeat (match goal with
              | |- context [rbind ?m _] => destruct m; cbn [rbind]; try discriminate
              end).
      intros H. inversion H. reflexivity.
    + right. exists c, first, rest. repeat split; auto.
  - destruct Hsample as (q & H1 & H2 & [H3 | (c' & f & r & Hx & Hy & Hz)]);
      exists q; repeat split; auto; right; exists c', f, r; repeat split; auto;
      congruence.
Qed.

Lemma quote_route_always_answers_witness :
  exists q : Webull.Quote,
    WebullRoutes.get_quote demo_service lowest_env 0 "aapl" = Http200 q /\
    Webull.quote_symbol q = JStr (Webull.upper "aapl") /\
    ((q = Webull._get_sample_quote lowest_env 0 (JStr (Webull.upper "aapl")) /\
      sample_quote_range q) \/
     exists (c : Webull.Client) (first : gmap string json)
            (rest : list (gmap string json)),
       Webull.client demo_service = Some c /\
       Webull.market_get_quote c (JStr (Webull.upper "aapl")) = Ok (first :: rest) /\
       Webull.convert_quote lowest_env (JStr (Webull.upper "aapl")) first = Ok q).
Proof.
  exact (quote_route_always_answers demo_service lowest_env 0 "aapl" lowest_env_ok).
Defined.

(** ** Portfolios and positions *)







Lemma get_positions_in (filter : option uuid) (user : uuid) (db : DB)
    (pos : Position.t) :
  In pos (TradingRoutes.get_positions filter user db) ->
  In pos (positions db) /\
  (0 < Position.quantity pos)%Q /\
  (exists p : Portfolio.t, In p (portfolios db) /\
     Portfolio.id p = Position.portfolio_id pos /\ Portfolio.user_id p = user) /\
  (forall pid : uuid, filter = Some pid -> Position.portfolio_id pos = pid).
Proof.
  unfold TradingRoutes.get_positions. intros Hin.
  assert (Hown : In pos (List.filter
                   (fun pos => TradingRoutes.of_user user db pos
                               && Qltb 0 (Position.quantity pos)) (positions db)) /\
                 (forall pid : uuid, filter = Some pid -> Position.portfolio_id pos = pid)).
  { destruct filter as [pid |].
    - apply filter_In in Hin as [Hin Hpid]. split; [exact Hin |].
      intros pid' E. inversion E; subst pid'. now apply N.eqb_eq.
    - split; [exact Hin | discriminate]. }
  destruct Hown as [Hown Hpid]. apply filter_In in Hown as [Hpos Hb].
  apply andb_true_iff in Hb as [Hu Hq].
  repeat split; auto.
  - now apply Qltb_lt.
  - unfold TradingRoutes.of_user in Hu. apply existsb_exists in Hu as (p & Hp & Hb).
    apply andb_true_iff in Hb as [H1 H2].
    exists p. repeat split; auto; now apply N.eqb_eq.
Qed.

(** X22. The positions route shows the caller's open positions, and no job
    moves them.  Every position [get_positions] returns has a quantity
    above zero, lies in a portfolio of the caller, and in the portfolio
    asked for when one is given.  Whatever a run of [execute_strategy]
    does, trade or no trade, success or error, the route returns the same
    positions after it as before, and the portfolio routes the same
    portfolios with the same balances. *)
Theorem job_leaves_ledger_routes_unchanged (w : World) (strategy_id : string)
    (s : Session) :
  exists (r : JobResult) (s' : Session),
    execute_strategy w strategy_id s = (Ok r, s') /\
    forall user : uuid,
      PortfolioRoutes.get_portfolios user (committed s')
        = PortfolioRoutes.get_portfolios user (committed s) /\
      (forall pid : uuid,
         PortfolioRoutes.get_portfolio pid user (committed s')
           = PortfolioRoutes.get_portfolio pid user (committed s)) /\
      (forall filter : option uuid,
         TradingRoutes.get_positions filter user (committed s')
           = TradingRoutes.get_positions filter user (committed s) /\
         forall pos : Position.t,
           In pos (TradingRoutes.get_positions filter user (committed s')) ->
           In pos (positions (committed s)) /\
           (0 < Position.quantity pos)%Q /\
           (exists p : Portfolio.t, In p (portfolios (committed s)) /\
              Portfolio.id p = Position.portfolio_id pos /\
              Portfolio.user_id p = user) /\
           (forall pid : uuid, filter = Some pid -> Position.portfolio_id pos = pid)).
Proof.
  destruct (execute_strategy_keeps_ledger w strategy_id s) as (r & s' & He & Hpf & Hpos).
  exists r, s'. split; [exact He |]. intros user.
  assert (E : forall filter, TradingRoutes.get_positions filter user (committed s')
                             = TradingRoutes.get_positions filter user (committed s)).
  { intros filter. unfold TradingRoutes.get_positions, TradingRoutes.of_user.
    now rewrite Hpf, Hpos. }
  unfold PortfolioRoutes.get_portfolios, PortfolioRoutes.get_portfolio.
  rewrite Hpf. repeat split; auto; rewrite E in H;
    destruct (get_positions_in filter user (committed s) pos H) as (H1 & H2 & H3 & H4);
    auto.
Qed.
